(** * InfluencerSphere backend: scoped store, search and ranking, alert evaluation

    A shallow embedding of
    - [backend/app/services/firestore_service.py]   (scoped store),
    - [backend/app/ml_agents/recommendation_agent.py] (market ranker),
    - [backend/app/services/influencer_service.py]  (search and ranking),
    - [backend/app/api/v1/routes/search.py]         (search endpoint),
    - [backend/app/api/v1/routes/influencers.py]    (the profile response model),
    - [backend/app/services/alert_service.py]       (alert evaluation),
    followed by the properties of the specification.

    Conventions of the embedding.
    - A Python [Dict[str, Any]] is a [gmap string PyVal].
    - Finite floats are exact rationals ([Q]); the order and equality of
      finite floats are those of the rationals they denote.  The only
      infinite float of the code, the default of [max_followers], is handled
      where it is read.  Arithmetic on floats is exact: the rounding of a
      float operation is not modelled.  An [int] is unbounded; where the
      code adds an [int] to a [float] the [int] is converted, which fails
      with [OverflowError] beyond the range of the floats.
    - A raised exception is [Raise e]; a function that can raise returns
      [Res A].
    - Functions that call the store run in the monad [M], which threads the
      list of store calls made so far and the alert service's
      [_last_check_time].
    - The response models of the endpoints are validated by a library
      outside the repository.  Which fields a model declares, with which
      types and defaults, is taken from the code; whether the library
      accepts a given value for a declared type is a parameter of the
      embedding (a [Validator]), and the properties of the endpoint hold
      for every validator.
    - [print] and logger calls are not modelled. *)

From Stdlib Require Import Ascii String QArith Qround Lqa.
From stdpp Require Import base strings gmap list sorting pretty.

Local Open Scope string_scope.
Local Open Scope Z_scope.
Local Open Scope list_scope.

(** ** Python values *)

Inductive PyVal : Type :=
  | PNone
  | PBool (b : bool)
  | PInt (z : Z)
  | PFloat (q : Q)
  | PStr (s : string).

Inductive PyErr : Type :=
  | TypeError
  | KeyError
  | OverflowError
  | ValidationError
  | AuthError (msg : string)
  | HTTPException (status_code : Z) (detail : string).

Inductive Res (A : Type) : Type :=
  | Ok (a : A)
  | Raise (e : PyErr).
Arguments Ok {A} a.
Arguments Raise {A} e.

#[global] Instance Res_ret : MRet Res := fun _ a => Ok a.
#[global] Instance Res_bind : MBind Res := fun _ _ f m =>
  match m with
  | Ok a => f a
  | Raise e => Raise e
  end.

#[global] Instance Res_fmap : FMap Res := fun _ _ f m =>
  match m with
  | Ok a => Ok (f a)
  | Raise e => Raise e
  end.

(** [bool(v)]. *)
Definition truthy (v : PyVal) : bool :=
  match v with
  | PNone => false
  | PBool b => b
  | PInt z => negb (z =? 0)
  | PFloat q => negb (Qeq_bool q 0)
  | PStr s => negb (String.eqb s "")
  end.

(** The number a value denotes in a comparison ([bool] is a subclass of
    [int]); [None] for values that are not numbers. *)
Definition as_num (v : PyVal) : option Q :=
  match v with
  | PBool b => Some (if b then 1%Q else 0%Q)
  | PInt z => Some (inject_Z z)
  | PFloat q => Some q
  | PNone | PStr _ => None
  end.

(** [a == b]. *)
Definition py_eq (a b : PyVal) : bool :=
  match as_num a, as_num b with
  | Some x, Some y => Qeq_bool x y
  | _, _ =>
      match a, b with
      | PNone, PNone => true
      | PStr s, PStr t => String.eqb s t
      | _, _ => false
      end
  end.

(** [a != b]. *)
Definition py_ne (a b : PyVal) : bool := negb (py_eq a b).

(** [a < b], [a <= b], [a >= b]: defined between numbers and between
    strings, [TypeError] otherwise. *)
Definition py_lt (a b : PyVal) : Res bool :=
  match as_num a, as_num b with
  | Some x, Some y => Ok (negb (Qle_bool y x))
  | _, _ =>
      match a, b with
      | PStr s, PStr t => Ok (String.ltb s t)
      | _, _ => Raise TypeError
      end
  end.

Definition py_le (a b : PyVal) : Res bool :=
  match as_num a, as_num b with
  | Some x, Some y => Ok (Qle_bool x y)
  | _, _ =>
      match a, b with
      | PStr s, PStr t => Ok (String.leb s t)
      | _, _ => Raise TypeError
      end
  end.

Definition py_ge (a b : PyVal) : Res bool := py_le b a.

(** [v <= float('inf')] for a value [v] that is not itself infinite. *)
Definition py_le_inf (v : PyVal) : Res bool :=
  match as_num v with
  | Some _ => Ok true
  | None => Raise TypeError
  end.

(** [d.get(k)] and [d.get(k, default)]. *)
Definition dict_get (d : gmap string PyVal) (k : string) : PyVal :=
  default PNone (d !! k).

Definition dict_get_or (d : gmap string PyVal) (k : string) (dflt : PyVal) : PyVal :=
  default dflt (d !! k).

(** [l[:stop]] and [l[start:stop]] for integer bounds: a negative index
    counts from the end, and every index is clamped to the list. *)
Definition slice_index {A} (l : list A) (i : Z) : nat :=
  let n := Z.of_nat (length l) in
  Z.to_nat (if i <? 0 then Z.max 0 (n + i) else Z.min i n).

Definition py_slice {A} (l : list A) (start stop : Z) : list A :=
  let a := slice_index l start in
  let b := slice_index l stop in
  take (b - a)%nat (drop a l).

Definition py_slice_to {A} (l : list A) (stop : Z) : list A :=
  take (slice_index l stop) l.

(** ** Scoped store ([firestore_service.py]) *)

(** [s.split('/')[-1]]: what follows the last slash. *)
Fixpoint last_segment_aux (acc : string) (s : string) : string :=
  match s with
  | EmptyString => acc
  | String c s' =>
      if Ascii.eqb c "/"%char then last_segment_aux "" s'
      else last_segment_aux (acc +:+ String c "") s'
  end.

Definition last_segment (s : string) : string := last_segment_aux "" s.

Record DocumentSnapshot : Type := {
  snap_id : string;
  snap_data : gmap string PyVal;
  snap_exists : bool
}.

(** [MockDocumentSnapshot.__init__]. *)
Definition MockDocumentSnapshot (ref : string) (data : gmap string PyVal) : DocumentSnapshot :=
  {| snap_id := last_segment ref; snap_data := data; snap_exists := true |}.

(** The database client held in [FirestoreService.db]: what streaming a
    collection yields, what reading a document reference yields and the id
    given to an added document.  [set], [update] and [delete] return
    nothing. *)
Record FirestoreClient : Type := {
  collection_stream : string -> list DocumentSnapshot;
  collection_add : string -> gmap string PyVal -> string;
  document_get : string -> DocumentSnapshot
}.

(** [MockCollectionRef] and [MockDocumentRef]. *)
Definition MockFirestoreClient : FirestoreClient :=
  {| collection_stream := fun path =>
       [ MockDocumentSnapshot (path +:+ "/doc1")
           {[ "id" := PStr "doc1"; "data" := PStr "Influencer 1" ]};
         MockDocumentSnapshot (path +:+ "/doc2")
           {[ "id" := PStr "doc2"; "data" := PStr "Influencer 2" ]} ];
     collection_add := fun path data => "mock-doc-" +:+ pretty (size data);
     document_get := fun path =>
       MockDocumentSnapshot path
         {[ "id" := PStr (last_segment path); "mock_field" := PStr "test_data" ]} |}.

Record FirestoreService : Type := {
  app_id : string;
  current_user_id : option string;
  db : FirestoreClient
}.

(** [FirestoreService.__init__] with [_authenticate_mock_user]: [token] is
    the environment's [__initial_auth_token]. *)
Definition FirestoreService_init (app : string) (token : option string)
    (client : FirestoreClient) : FirestoreService :=
  {| app_id := app;
     current_user_id :=
       match token with
       | Some t =>
           if negb (String.eqb t "")
           then Some ("fastapi-user-" +:+ app +:+ "-authenticated")
           else Some ("fastapi-guest-" +:+ app)
       | None => Some ("fastapi-guest-" +:+ app)
       end;
     db := client |}.

Definition auth_required : PyErr :=
  AuthError "Authentication required for private data access.".

Definition _get_private_collection_path (fs : FirestoreService)
    (collection_name : string) : Res string :=
  match current_user_id fs with
  | None => Raise auth_required
  | Some uid =>
      if String.eqb uid "" then Raise auth_required
      else Ok ("artifacts/" +:+ app_id fs +:+ "/users/" +:+ uid +:+ "/" +:+ collection_name)
  end.

Definition _get_public_collection_path (fs : FirestoreService)
    (collection_name : string) : string :=
  "artifacts/" +:+ app_id fs +:+ "/public/data/" +:+ collection_name.

(** The [path = ... if is_private else ...] line every operation opens with. *)
Definition collection_path (fs : FirestoreService) (collection_name : string)
    (is_private : bool) : Res string :=
  if is_private then _get_private_collection_path fs collection_name
  else Ok (_get_public_collection_path fs collection_name).

(** *** Store calls and service state *)

Inductive StoreCall : Type :=
  | DocumentGet (path : string)
  | CollectionStream (path : string)
  | CollectionAdd (path : string) (data : gmap string PyVal)
  | DocumentSet (path : string) (data : gmap string PyVal) (merge : bool)
  | DocumentDelete (path : string).

Record World : Type := {
  store_calls : list StoreCall;
  last_check_time : Q
}.

Definition M (A : Type) : Type := World -> Res A * World.

#[global] Instance M_ret : MRet M := fun _ a w => (Ok a, w).
#[global] Instance M_bind : MBind M := fun _ _ f m w =>
  match m w with
  | (Ok a, w') => f a w'
  | (Raise e, w') => (Raise e, w')
  end.

Definition lift {A} (r : Res A) : M A := fun w => (r, w).

Definition call_store (c : StoreCall) : M unit := fun w =>
  (Ok tt, {| store_calls := store_calls w ++ [c]; last_check_time := last_check_time w |}).

Definition get_last_check_time : M Q := fun w => (Ok (last_check_time w), w).

Definition set_last_check_time (t : Q) : M unit := fun w =>
  (Ok tt, {| store_calls := store_calls w; last_check_time := t |}).

(** *** CRUD operations *)

Definition get_document (fs : FirestoreService) (collection_name doc_id : string)
    (is_private : bool) : M (option (gmap string PyVal)) :=
  path ← lift (collection_path fs collection_name is_private);
  let doc_ref := path +:+ "/" +:+ doc_id in
  _ ← call_store (DocumentGet doc_ref);
  let snapshot := document_get (db fs) doc_ref in
  if snap_exists snapshot
  then mret (Some (<["id" := PStr (snap_id snapshot)]> (snap_data snapshot)))
  else mret None.

(** The body of the loop of [get_collection]: the record appended for a
    snapshot that exists. *)
Definition snapshot_record (doc : DocumentSnapshot) : option (gmap string PyVal) :=
  if snap_exists doc
  then Some (<["id" := PStr (snap_id doc)]> (snap_data doc))
  else None.

Definition get_collection (fs : FirestoreService) (collection_name : string)
    (is_private : bool) : M (list (gmap string PyVal)) :=
  path ← lift (collection_path fs collection_name is_private);
  _ ← call_store (CollectionStream path);
  mret (omap snapshot_record (collection_stream (db fs) path)).

Definition add_document (fs : FirestoreService) (collection_name : string)
    (data : gmap string PyVal) (is_private : bool) : M string :=
  path ← lift (collection_path fs collection_name is_private);
  _ ← call_store (CollectionAdd path data);
  mret (collection_add (db fs) path data).

Definition set_document (fs : FirestoreService) (collection_name doc_id : string)
    (data : gmap string PyVal) (is_private merge : bool) : M unit :=
  path ← lift (collection_path fs collection_name is_private);
  call_store (DocumentSet (path +:+ "/" +:+ doc_id) data merge).

Definition delete_document (fs : FirestoreService) (collection_name doc_id : string)
    (is_private : bool) : M unit :=
  path ← lift (collection_path fs collection_name is_private);
  call_store (DocumentDelete (path +:+ "/" +:+ doc_id)).

(** ** Settings ([core/config.py]) *)

Record Settings : Type := {
  DEFAULT_SEARCH_LIMIT : Z;
  ALERT_CHECK_INTERVAL_SECONDS : Z
}.

(** The values of the class body, used when the environment overrides
    nothing. *)
Definition default_settings : Settings :=
  {| DEFAULT_SEARCH_LIMIT := 25; ALERT_CHECK_INTERVAL_SECONDS := 300 |}.

(** ** Market ranker ([recommendation_agent.py]) *)

(** [model] is the loaded artifact, [None] in mock mode.  Applied to a
    feature dictionary it stands for
    [self.model.predict(self._convert_features_to_df(features))[0]];
    the result [None] stands for an exception raised on the way. *)
Record RecommendationAgent : Type := {
  model : option (gmap string PyVal -> option Q)
}.

Definition is_ready (agent : RecommendationAgent) : bool :=
  match model agent with Some _ => true | None => false end.

(** A number as arithmetic sees it: an [int] (a [bool] is one) or a
    [float]. *)
Inductive PyNum : Type :=
  | NInt (z : Z)
  | NFloat (q : Q).

Definition as_number (v : PyVal) : option PyNum :=
  match v with
  | PBool b => Some (NInt (if b then 1 else 0))
  | PInt z => Some (NInt z)
  | PFloat q => Some (NFloat q)
  | PNone | PStr _ => None
  end.

Definition num_value (n : PyNum) : Q :=
  match n with
  | NInt z => inject_Z z
  | NFloat q => q
  end.

(** The least magnitude of an [int] that no longer converts to a [float]:
    halfway between the largest float, [2^1024 - 2^971], and [2^1024]. *)
Definition float_overflow_bound : Z := 2 ^ 1024 - 2 ^ 970.

(** [float(z)], as [int + float] converts its [int] operand. *)
Definition float_of_int (z : Z) : Res Q :=
  if Z.abs z <? float_overflow_bound then Ok (inject_Z z) else Raise OverflowError.

(** [n * k] for a number [n] and an [int] literal [k]: an [int] stays an
    [int]. *)
Definition num_mul_literal (n : PyNum) (k : Z) : PyNum :=
  match n with
  | NInt z => NInt (z * k)
  | NFloat q => NFloat (q * inject_Z k)
  end.

(** [a + b] for two numbers. *)
Definition num_add (a b : PyNum) : Res PyNum :=
  match a, b with
  | NInt x, NInt y => Ok (NInt (x + y))
  | NFloat x, NFloat y => Ok (NFloat (x + y))
  | NInt x, NFloat y => x' ← float_of_int x; Ok (NFloat (x' + y))
  | NFloat x, NInt y => y' ← float_of_int y; Ok (NFloat (x + y'))
  end.

(** [(growth_rate * 500) + (avg_engagement * 10) + 40].  With an operand
    that is not a number the expression raises [TypeError] (for [None] at
    the product; a string is repeated by the product and fails at the sum
    with a number, two strings are joined and fail at [+ 40]).  With two
    numbers only the first sum can fail, when it adds an [int] beyond the
    range of the floats to a [float].  The result is the value of the
    [int] or [float] obtained, which [predict] clips and converts. *)
Definition _mock_rank_score (features : gmap string PyVal) : Res Q :=
  let growth_rate := dict_get_or features "Follower_Growth_Rate" (PFloat (5 # 100)) in
  let avg_engagement := dict_get_or features "Average_Engagement_Rate" (PFloat 3) in
  match as_number growth_rate, as_number avg_engagement with
  | Some g, Some a =>
      weighted ← num_add (num_mul_literal g 500) (num_mul_literal a 10);
      total ← num_add weighted (NInt 40);
      Ok (num_value total)
  | _, _ => Raise TypeError
  end.

(** [float(np.clip(x, lo, hi))]. *)
Definition np_clip (x lo hi : Q) : Q :=
  if Qle_bool x lo then lo else if Qle_bool hi x then hi else x.

(** [round(x, ndigits)]: to the nearest multiple of [10^-ndigits], a tie
    going to the even one. *)
Definition py_round (x : Q) (ndigits : Z) : Q :=
  let scale := inject_Z (10 ^ ndigits) in
  let y := (x * scale)%Q in
  let n := Qfloor y in
  let r := (y - inject_Z n)%Q in
  let n' :=
    if negb (Qle_bool (1 # 2) r) then n
    else if negb (Qle_bool r (1 # 2)) then n + 1
    else if Z.even n then n else n + 1 in
  (inject_Z n' / scale)%Q.

Record Prediction : Type := {
  Market_Value_Score : Q;
  Market_Tier : string;
  Estimated_Post_Fee_USD : Q
}.

Definition predict (agent : RecommendationAgent)
    (influencer_profile_features : gmap string PyVal) : Res Prediction :=
  rank_score ←
    match model agent with
    | None => _mock_rank_score influencer_profile_features
    | Some m =>
        match m influencer_profile_features with
        | Some s => Ok s
        | None => _mock_rank_score influencer_profile_features
        end
    end;
  let rank_score := np_clip rank_score 1 100 in
  let '(market_tier, est_value) :=
    if Qle_bool 90 rank_score then ("A-List Talent", 5000 + rank_score * 150)%Q
    else if Qle_bool 70 rank_score then ("High-Growth Asset", 2000 + rank_score * 75)%Q
    else ("Scouting Target", 500 + rank_score * 30)%Q in
  Ok {| Market_Value_Score := py_round rank_score 2;
        Market_Tier := market_tier;
        Estimated_Post_Fee_USD := py_round est_value 0 |}.

(** ** Search and ranking ([influencer_service.py]) *)

Record InfluencerService : Type := {
  inf_db : FirestoreService;
  inf_settings : Settings;
  ranking_agent : RecommendationAgent
}.

Definition INFLUENCER_COLLECTION : string := "influencers".

(** The three filters of the loop body: [Ok false] is [continue]. *)
Definition passes_filters (query_params profile : gmap string PyVal) : Res bool :=
  let niche_filter := dict_get query_params "niche" in
  if truthy niche_filter && py_ne (dict_get profile "niche_label") niche_filter
  then Ok false
  else
    let min_engagement := dict_get query_params "min_engagement_rate" in
    below ← (if truthy min_engagement
             then py_lt (dict_get_or profile "average_engagement_rate" (PInt 0)) min_engagement
             else Ok false);
    if (below : bool) then Ok false
    else
      let min_followers := dict_get_or query_params "min_followers" (PInt 0) in
      let follower_count := dict_get_or profile "follower_count" (PInt 0) in
      lower ← py_le min_followers follower_count;
      if (lower : bool)
      then match query_params !! "max_followers" with
           | None => py_le_inf follower_count
           | Some max_followers => py_le follower_count max_followers
           end
      else Ok false.

(** The "Augment and Score" part of the loop body. *)
Definition augment (agent : RecommendationAgent) (profile : gmap string PyVal)
    : Res (gmap string PyVal) :=
  augmented_data ← predict agent profile;
  Ok (<["market_tier" := PStr (Market_Tier augmented_data)]>
        (<["market_score" := PFloat (Market_Value_Score augmented_data)]> profile)).

(** The [for profile in raw_results] loop; the result is
    [filtered_results]. *)
Fixpoint filter_and_score (agent : RecommendationAgent)
    (query_params : gmap string PyVal) (raw_results : list (gmap string PyVal))
    : Res (list (gmap string PyVal)) :=
  match raw_results with
  | [] => Ok []
  | profile :: rest =>
      keep ← passes_filters query_params profile;
      if (keep : bool)
      then scored ← augment agent profile;
           filtered ← filter_and_score agent query_params rest;
           Ok (scored :: filtered)
      else filter_and_score agent query_params rest
  end.

(** The sort key [x.get('market_score', 0)].  Every record that reaches the
    sort had [market_score] set to a float by [augment]
    ([filter_and_score_has_score] below), so the key is a number and the
    comparisons of the sort do not raise. *)
Definition market_score_key (x : gmap string PyVal) : Q :=
  default 0%Q (as_num (dict_get_or x "market_score" (PInt 0))).

(** [sorted(l, key=key, reverse=True)]: the stable descending sort, written
    as an insertion sort.  An element is inserted in front of the first
    element whose key is not strictly greater, so it stays ahead of the
    later elements with an equal key. *)
Fixpoint insert_reverse {A} (key : A -> Q) (x : A) (l : list A) : list A :=
  match l with
  | [] => [x]
  | y :: l' =>
      if negb (Qle_bool (key y) (key x)) then y :: insert_reverse key x l'
      else x :: l
  end.

Fixpoint sorted_reverse {A} (key : A -> Q) (l : list A) : list A :=
  match l with
  | [] => []
  | x :: l' => insert_reverse key x (sorted_reverse key l')
  end.

(** [sorted_results[:limit]]. *)
Definition take_limit {A} (sorted_results : list A) (limit : PyVal) : Res (list A) :=
  match limit with
  | PNone => Ok sorted_results
  | PInt z => Ok (py_slice_to sorted_results z)
  | PBool b => Ok (py_slice_to sorted_results (if b then 1 else 0))
  | PFloat _ | PStr _ => Raise TypeError
  end.

(** The filtered, scored and sorted list [sorted_results], before the
    limit is applied. *)
Definition ranked_listing (svc : InfluencerService)
    (query_params : gmap string PyVal) (raw_results : list (gmap string PyVal))
    : Res (list (gmap string PyVal)) :=
  filtered_results ← filter_and_score (ranking_agent svc) query_params raw_results;
  Ok (sorted_reverse market_score_key filtered_results).

(** Everything of [search_and_filter_influencers] after the store listing. *)
Definition search_listing (svc : InfluencerService)
    (query_params : gmap string PyVal) (raw_results : list (gmap string PyVal))
    : Res (list (gmap string PyVal)) :=
  sorted_results ← ranked_listing svc query_params raw_results;
  let limit := dict_get_or query_params "limit"
                 (PInt (DEFAULT_SEARCH_LIMIT (inf_settings svc))) in
  take_limit sorted_results limit.

Definition search_and_filter_influencers (svc : InfluencerService)
    (query_params : gmap string PyVal) : M (list (gmap string PyVal)) :=
  raw_results ← get_collection (inf_db svc) INFLUENCER_COLLECTION false;
  lift (search_listing svc query_params raw_results).

(** ** Search endpoint ([routes/search.py]) *)

(** The declared type of a field of a response model. *)
Inductive FieldType : Type :=
  | StrField
  | IntField
  | FloatField
  | StrListField.

(** A field of a response model; a field that is not required has a
    default. *)
Record Field : Type := {
  field_name : string;
  field_type : FieldType;
  field_required : bool
}.

(** [InfluencerProfile] of [routes/influencers.py]: every field is required
    except [niche_tags], whose default is the empty list. *)
Definition InfluencerProfile : list Field :=
  [ {| field_name := "platform_id"; field_type := StrField; field_required := true |};
    {| field_name := "username"; field_type := StrField; field_required := true |};
    {| field_name := "platform"; field_type := StrField; field_required := true |};
    {| field_name := "niche_tags"; field_type := StrListField; field_required := false |};
    {| field_name := "follower_count"; field_type := IntField; field_required := true |};
    {| field_name := "engagement_rate"; field_type := FloatField; field_required := true |};
    {| field_name := "market_score"; field_type := FloatField; field_required := true |};
    {| field_name := "last_updated"; field_type := StrField; field_required := true |} ].

(** The decision of the validation library whether a value is acceptable
    for a field of a declared type. *)
Definition Validator : Type := FieldType → PyVal → bool.

(** A dictionary validates against a model when every field it holds is
    acceptable and no required field is missing; keys the model does not
    declare are ignored. *)
Definition validates (accepts : Validator) (fields : list Field)
    (data : gmap string PyVal) : bool :=
  forallb (fun field =>
             match data !! field_name field with
             | Some v => accepts (field_type field) v
             | None => negb (field_required field)
             end) fields.

(** [SearchResult]; [results] lists the records the [InfluencerProfile]s of
    the page are built from. *)
Record SearchResult : Type := {
  count : Z;
  page_size : Z;
  page : Z;
  results : list (gmap string PyVal)
}.

(** [SearchResult(count=..., page_size=..., page=..., results=...)]: the
    three counters are [int]s, each record of [results] is validated as an
    [InfluencerProfile]. *)
Definition SearchResult_init (accepts : Validator) (count page_size page : Z)
    (results : list (gmap string PyVal)) : Res SearchResult :=
  if forallb (validates accepts InfluencerProfile) results
  then Ok {| count := count; page_size := page_size; page := page; results := results |}
  else Raise ValidationError.

(** [e.__class__.__name__]. *)
Definition class_name (e : PyErr) : string :=
  match e with
  | TypeError => "TypeError"
  | KeyError => "KeyError"
  | OverflowError => "OverflowError"
  | ValidationError => "ValidationError"
  | AuthError _ => "Exception"
  | HTTPException _ _ => "HTTPException"
  end.

Definition opt_str (o : option string) : PyVal :=
  match o with Some s => PStr s | None => PNone end.

(** The dictionary [search_params] the handler builds from its query
    parameters. *)
Definition search_params (q niche : option string) (min_engagement : Q)
    (min_followers page limit : Z) : gmap string PyVal :=
  {[ "q" := opt_str q;
     "niche" := opt_str niche;
     "min_engagement_rate" := PFloat min_engagement;
     "min_followers" := PInt min_followers;
     "limit" := PInt limit;
     "page" := PInt page ]}.

(** The body of the handler's [try] block: the service call, the slice and
    the construction of the response. *)
Definition search_page (accepts : Validator) (svc : InfluencerService)
    (q niche : option string) (min_engagement : Q) (min_followers : Z)
    (page limit : Z) : M SearchResult :=
  all_results ← search_and_filter_influencers svc
                  (search_params q niche min_engagement min_followers page limit);
  let total_mock_count := Z.of_nat (length all_results) * 2 in
  let start_index := (page - 1) * limit in
  let paginated_results := py_slice all_results start_index (start_index + limit) in
  lift (SearchResult_init accepts total_mock_count limit page paginated_results).

(** The handler of [GET /search/influencers]: whatever the [try] block
    raises is answered with status 500 and the name of its class. *)
Definition search_influencers (accepts : Validator) (svc : InfluencerService)
    (q niche : option string) (min_engagement : Q) (min_followers : Z)
    (page limit : Z) : M SearchResult :=
  fun w =>
    match search_page accepts svc q niche min_engagement min_followers page limit w with
    | (Ok response, w') => (Ok response, w')
    | (Raise e, w') =>
        (Raise (HTTPException 500 ("Search operation failed: " +:+ class_name e)), w')
    end.

(** ** Alert evaluation ([alert_service.py]) *)

Record AlertService : Type := {
  alert_db : FirestoreService;
  alert_settings : Settings;
  influencer_service : InfluencerService
}.

Definition ALERT_COLLECTION : string := "user_alerts".

(** [AlertService.__init__] leaves the store untouched and sets
    [_last_check_time = time.time() - interval - 60]; [now] is the reading
    of [time.time()]. *)
Definition AlertService_init (settings : Settings) (now : Q) : World :=
  {| store_calls := [];
     last_check_time := (now - inject_Z (ALERT_CHECK_INTERVAL_SECONDS settings) - 60)%Q |}.

(** The f-string [message] is kept as the values it interpolates. *)
Record AlertMessage : Type := {
  msg_username : PyVal;
  msg_condition_type : PyVal;
  msg_target_value : PyVal
}.

(** A triggered alert; [profile_link] holds the [influencer_id] that the
    code puts after ["/influencers/"]. *)
Record TriggeredAlert : Type := {
  alert_id : PyVal;
  user_id : PyVal;
  message : AlertMessage;
  triggered_on : PyVal;
  profile_link : PyVal
}.

(** [d[k] = v] on a dictionary in insertion order: an existing key keeps
    its place and takes the new value. *)
Fixpoint ordered_set {V} (d : list (PyVal * V)) (k : PyVal) (v : V) : list (PyVal * V) :=
  match d with
  | [] => [(k, v)]
  | (k', v') :: d' =>
      if py_eq k' k then (k', v) :: d' else (k', v') :: ordered_set d' k v
  end.

(** [{p['id']: p for p in market_data}], from the dictionary built so far. *)
Fixpoint influencer_map_from (acc : list (PyVal * gmap string PyVal))
    (market_data : list (gmap string PyVal)) : Res (list (PyVal * gmap string PyVal)) :=
  match market_data with
  | [] => Ok acc
  | p :: rest =>
      match p !! "id" with
      | Some k => influencer_map_from (ordered_set acc k p) rest
      | None => Raise KeyError
      end
  end.

Definition build_influencer_map (market_data : list (gmap string PyVal))
    : Res (list (PyVal * gmap string PyVal)) :=
  influencer_map_from [] market_data.

(** The [if ... elif ...] that sets [is_triggered]. *)
Definition condition_matches (condition_type target_value : PyVal)
    (profile : gmap string PyVal) : Res bool :=
  by_engagement ←
    (if py_eq condition_type (PStr "min_engagement_rate")
     then py_ge (dict_get_or profile "average_engagement_rate" (PInt 0)) target_value
     else Ok false);
  if (by_engagement : bool) then Ok true
  else if py_eq condition_type (PStr "min_market_score")
       then py_ge (dict_get_or profile "market_score" (PInt 0)) target_value
       else Ok false.

(** The inner loop [for influencer_id, profile in influencer_map.items()],
    left at the first match. *)
Fixpoint scan_profiles (alert : gmap string PyVal)
    (condition_type target_value target_niche : PyVal)
    (items : list (PyVal * gmap string PyVal)) : Res (option TriggeredAlert) :=
  match items with
  | [] => Ok None
  | (influencer_id, profile) :: rest =>
      if truthy target_niche && py_ne (dict_get profile "niche_label") target_niche
      then scan_profiles alert condition_type target_value target_niche rest
      else
        is_triggered ← condition_matches condition_type target_value profile;
        if (is_triggered : bool)
        then Ok (Some {| alert_id := dict_get alert "id";
                         user_id := dict_get alert "user_id";
                         message := {| msg_username := dict_get profile "username";
                                       msg_condition_type := condition_type;
                                       msg_target_value := target_value |};
                         triggered_on := dict_get profile "username";
                         profile_link := influencer_id |})
        else scan_profiles alert condition_type target_value target_niche rest
  end.

(** The body of [for alert in all_alerts]: what the rule appends to
    [triggered_alerts]. *)
Definition evaluate_alert (influencer_map : list (PyVal * gmap string PyVal))
    (alert : gmap string PyVal) : Res (option TriggeredAlert) :=
  let condition_type := dict_get alert "condition_type" in
  let target_value := dict_get alert "value" in
  let target_niche := dict_get alert "niche" in
  if negb (truthy condition_type) || negb (truthy target_value) then Ok None
  else scan_profiles alert condition_type target_value target_niche influencer_map.

Fixpoint evaluate_alerts (influencer_map : list (PyVal * gmap string PyVal))
    (all_alerts : list (gmap string PyVal)) : Res (list TriggeredAlert) :=
  match all_alerts with
  | [] => Ok []
  | alert :: rest =>
      triggered ← evaluate_alert influencer_map alert;
      later ← evaluate_alerts influencer_map rest;
      Ok (option_list triggered ++ later)
  end.

(** [evaluate_all_alerts]; [current_time] is the reading of [time.time()]
    at entry. *)
Definition evaluate_all_alerts (svc : AlertService) (current_time : Q)
    : M (list TriggeredAlert) :=
  last ← get_last_check_time;
  if negb (Qle_bool (inject_Z (ALERT_CHECK_INTERVAL_SECONDS (alert_settings svc)))
                    (current_time - last))
  then mret []
  else
    _ ← set_last_check_time current_time;
    market_data ← search_and_filter_influencers (influencer_service svc) ∅;
    influencer_map ← lift (build_influencer_map market_data);
    all_alerts ← get_collection (alert_db svc) ALERT_COLLECTION true;
    lift (evaluate_alerts influencer_map all_alerts).

(** ** Further operations of the services *)

(** [get_current_user_id] of [api/deps.py]: the identity a request runs
    under, status 401 when none is bound. *)
Definition get_current_user_id (fs : FirestoreService) : Res string :=
  match current_user_id fs with
  | Some user_id =>
      if String.eqb user_id ""
      then Raise (HTTPException 401 "Could not validate credentials or user ID.")
      else Ok user_id
  | None => Raise (HTTPException 401 "Could not validate credentials or user ID.")
  end.


(** What [AlertService.create_alert] ends with: the id of the new document,
    its own [ValueError], or an exception of the store. *)
Inductive CreateAlertResult : Type :=
  | Created (doc_id : string)
  | CreateValueError (msg : string)
  | CreateRaised (e : PyErr).

(** [AlertService.create_alert]; [now] is the reading of [time.time()]. *)
Definition create_alert (svc : AlertService) (user_id : string)
    (alert_data : gmap string PyVal) (now : Q) : World → CreateAlertResult * World :=
  fun w =>
    if String.eqb user_id ""
    then (CreateValueError "User ID must be provided to create a private alert.", w)
    else
      let alert_data := <["created_at" := PFloat now]>
                          (<["user_id" := PStr user_id]> alert_data) in
      match add_document (alert_db svc) ALERT_COLLECTION alert_data true w with
      | (Ok doc_id, w') => (Created doc_id, w')
      | (Raise e, w') => (CreateRaised e, w')
      end.

(** [AlertService.get_alerts_by_user]: a failure of the listing is printed
    and answered with the empty list. *)
Definition get_alerts_by_user (svc : AlertService) (user_id : string)
    : M (list (gmap string PyVal)) :=
  fun w =>
    match get_collection (alert_db svc) ALERT_COLLECTION true w with
    | (Ok alerts, w') => (Ok alerts, w')
    | (Raise _, w') => (Ok [], w')
    end.

(** [AlertService.update_alert] and [AlertService.delete_alert]. *)
Definition update_alert (svc : AlertService) (alert_id : string)
    (update_data : gmap string PyVal) (user_id : string) : M unit :=
  set_document (alert_db svc) ALERT_COLLECTION alert_id update_data true true.

Definition delete_alert (svc : AlertService) (alert_id user_id : string) : M unit :=
  delete_document (alert_db svc) ALERT_COLLECTION alert_id true.

(** ** Notions used by the properties *)

(** The records a listing of [collection_name] returns at [path]. *)
Definition listed (fs : FirestoreService) (path : string) : list (gmap string PyVal) :=
  omap snapshot_record (collection_stream (db fs) path).

(** The public Profile pool as [get_collection] lists it. *)
Definition public_pool (fs : FirestoreService) : list (gmap string PyVal) :=
  listed fs (_get_public_collection_path fs INFLUENCER_COLLECTION).

(** No tenant identity is bound: [not self.current_user_id]. *)
Definition tenant_unbound (fs : FirestoreService) : Prop :=
  current_user_id fs = None ∨ current_user_id fs = Some "".

(** The same service under another tenant binding. *)
Definition with_tenant (fs : FirestoreService) (u : option string) : FirestoreService :=
  {| app_id := app_id fs; current_user_id := u; db := db fs |}.

(** An operation fails with the authentication error and leaves the world
    as it was. *)
Definition unauthorized {A} (op : M A) (w : World) : Prop :=
  op w = (Raise auth_required, w).

(** An operation returns, having made exactly the store call [c]. *)
Definition succeeds_calling {A} (op : M A) (w : World) (c : StoreCall) : Prop :=
  ∃ a, op w = (Ok a, {| store_calls := store_calls w ++ [c];
                        last_check_time := last_check_time w |}).

(** The world after one more store call. *)
Definition called (w : World) (c : StoreCall) : World :=
  {| store_calls := store_calls w ++ [c]; last_check_time := last_check_time w |}.

(** The world after the recorded check time is set to [t]. *)
Definition checked_at (w : World) (t : Q) : World :=
  {| store_calls := store_calls w; last_check_time := t |}.

(** The times, among the successive invocation times [times], at which
    [evaluate_all_alerts] really evaluated: those invocations that reached
    the store (the call-count probe of the listing). *)
Fixpoint evaluation_times (svc : AlertService) (times : list Q) (w : World) : list Q :=
  match times with
  | [] => []
  | t :: times' =>
      let w' := snd (evaluate_all_alerts svc t w) in
      if (length (store_calls w) <? length (store_calls w'))%nat
      then t :: evaluation_times svc times' w'
      else evaluation_times svc times' w'
  end.

(** Each time of [ts] is at least [interval] after the one before it,
    starting from [prev]. *)
Fixpoint spaced (interval prev : Q) (ts : list Q) : Prop :=
  match ts with
  | [] => True
  | t :: ts' => (interval <= t - prev)%Q ∧ spaced interval t ts'
  end.

(** The order of a descending listing: [a] may stand before [b]. *)
Definition key_ge {A} (key : A → Q) : relation A := fun a b => (key b <= key a)%Q.


(** A profile survives the filters of the loop: it is not skipped.  Used
    for searches that return, in which no comparison has raised. *)
Definition passes (query_params profile : gmap string PyVal) : bool :=
  match passes_filters query_params profile with
  | Ok true => true
  | _ => false
  end.

(** The candidates of a pool under a predicate set, in listing order,
    before scoring. *)
Definition survivors (query_params : gmap string PyVal)
    (raw_results : list (gmap string PyVal)) : list (gmap string PyVal) :=
  List.filter (passes query_params) raw_results.

(** [scored] holds, in the same order, the records of [candidates] as
    [augment] scores them. *)
Definition scored_from (agent : RecommendationAgent)
    (candidates scored : list (gmap string PyVal)) : Prop :=
  Forall2 (fun profile record => augment agent profile = Ok record) candidates scored.




(** *** Profiles and rules, as the data model words them *)

(** The follower count is a non-negative number, the average engagement
    rate is a number, and the features the mock ranker reads are numbers
    (each of them may be absent). *)
Definition nonnegative_followers (profile : gmap string PyVal) : Prop :=
  ∃ n, as_num (dict_get_or profile "follower_count" (PInt 0)) = Some n ∧ (0 <= n)%Q.

Definition well_formed_profile (profile : gmap string PyVal) : Prop :=
  nonnegative_followers profile
  ∧ is_Some (as_num (dict_get_or profile "average_engagement_rate" (PInt 0)))
  ∧ (∃ s, _mock_rank_score profile = Ok s).

Definition record_id (record : gmap string PyVal) : PyVal := dict_get record "id".

(** The profile passes the rule's niche filter. *)
Definition niche_visible (target_niche : PyVal) (profile : gmap string PyVal) : bool :=
  negb (truthy target_niche && py_ne (dict_get profile "niche_label") target_niche).



(** The profile passes the rule's niche filter and its average engagement
    rate is at least [T]. *)
Definition qualifies (rule : gmap string PyVal) (T : Q)
    (profile : gmap string PyVal) : bool :=
  niche_visible (dict_get rule "niche") profile
  && match as_num (dict_get_or profile "average_engagement_rate" (PInt 0)) with
     | Some e => Qle_bool T e
     | None => false
     end.

(** The alert [scan_profiles] builds for a rule and a matching entry of the
    influencer map. *)
Definition triggered_alert (alert : gmap string PyVal) (influencer_id : PyVal)
    (profile : gmap string PyVal) : TriggeredAlert :=
  {| alert_id := dict_get alert "id";
     user_id := dict_get alert "user_id";
     message := {| msg_username := dict_get profile "username";
                   msg_condition_type := dict_get alert "condition_type";
                   msg_target_value := dict_get alert "value" |};
     triggered_on := dict_get profile "username";
     profile_link := influencer_id |}.

(** *** The predicates of a search, as the specification words them *)

Inductive Predicate : Type :=
  | NicheIs (niche : PyVal)
  | MinEngagementRate (bound : PyVal)
  | MinFollowers (bound : PyVal)
  | MaxFollowers (bound : PyVal).

Definition satisfies (profile : gmap string PyVal) (predicate : Predicate) : Prop :=
  match predicate with
  | NicheIs niche => py_eq (dict_get profile "niche_label") niche = true
  | MinEngagementRate bound =>
      py_ge (dict_get_or profile "average_engagement_rate" (PInt 0)) bound = Ok true
  | MinFollowers bound =>
      py_le bound (dict_get_or profile "follower_count" (PInt 0)) = Ok true
  | MaxFollowers bound =>
      py_le (dict_get_or profile "follower_count" (PInt 0)) bound = Ok true
  end.

(** The predicates the service applies for a parameter dictionary: the
    niche when it is not empty, the minimum engagement rate when it is not
    zero, the lower follower bound (0 when absent) and the upper follower
    bound when present. *)
Definition applied_predicates (query_params : gmap string PyVal) : list Predicate :=
  (if truthy (dict_get query_params "niche")
   then [NicheIs (dict_get query_params "niche")] else [])
  ++ (if truthy (dict_get query_params "min_engagement_rate")
      then [MinEngagementRate (dict_get query_params "min_engagement_rate")] else [])
  ++ [MinFollowers (dict_get_or query_params "min_followers" (PInt 0))]
  ++ match query_params !! "max_followers" with
     | Some bound => [MaxFollowers bound]
     | None => []
     end.

(** The bounds of a predicate set are numbers, each of them where it is
    given. *)
Definition numeric_parameters (query_params : gmap string PyVal) : Prop :=
  is_Some (as_num (dict_get_or query_params "min_engagement_rate" (PInt 0)))
  ∧ is_Some (as_num (dict_get_or query_params "min_followers" (PInt 0)))
  ∧ is_Some (as_num (dict_get_or query_params "max_followers" (PInt 0))).

(** *** The free-text predicate, as the specification words it *)

(** Lower case of an ASCII letter. *)
Definition lower_ascii (c : ascii) : ascii :=
  let n := nat_of_ascii c in
  if ((65 <=? n) && (n <=? 90))%nat then ascii_of_nat (n + 32) else c.

Fixpoint lower (s : string) : string :=
  match s with
  | EmptyString => EmptyString
  | String c s' => String (lower_ascii c) (lower s')
  end.

(** [needle in haystack]. *)
Fixpoint contains (needle haystack : string) : bool :=
  String.prefix needle haystack
  || match haystack with
     | EmptyString => false
     | String _ rest => contains needle rest
     end.

Definition field_contains (query : string) (field : PyVal) : bool :=
  match field with
  | PStr text => contains (lower query) (lower text)
  | _ => false
  end.

(** The profile's username or bio contains the query, letter case apart. *)
Definition matches_free_text (query : string) (profile : gmap string PyVal) : bool :=
  field_contains query (dict_get profile "username")
  || field_contains query (dict_get profile "bio").

(** The string has no slash. *)
Fixpoint slash_free (s : string) : bool :=
  match s with
  | EmptyString => true
  | String c s' => negb (Ascii.eqb c "/"%char) && slash_free s'
  end.

(** ** Fixtures for the examples *)

(** A store whose ["influencers"] collection streams [profiles] and whose
    ["user_alerts"] collection streams [alerts], each given as (id, data). *)
Definition snapshots_of (docs : list (string * gmap string PyVal)) : list DocumentSnapshot :=
  map (fun '(i, d) => {| snap_id := i; snap_data := d; snap_exists := true |}) docs.

Definition fixture_client (profiles alerts : list (string * gmap string PyVal))
    : FirestoreClient :=
  {| collection_stream := fun path =>
       if String.eqb (last_segment path) "influencers" then snapshots_of profiles
       else if String.eqb (last_segment path) "user_alerts" then snapshots_of alerts
       else [];
     collection_add := fun path data => "doc-" +:+ pretty (size data);
     document_get := fun path => MockDocumentSnapshot path ∅ |}.

Definition fixture_store (profiles alerts : list (string * gmap string PyVal))
    : FirestoreService :=
  FirestoreService_init "app" None (fixture_client profiles alerts).

Definition fixture_search (agent : RecommendationAgent)
    (profiles : list (string * gmap string PyVal)) : InfluencerService :=
  {| inf_db := fixture_store profiles [];
     inf_settings := default_settings;
     ranking_agent := agent |}.

Definition mock_agent : RecommendationAgent := {| model := None |}.

Definition fixture_alerts (profiles alerts : list (string * gmap string PyVal))
    : AlertService :=
  {| alert_db := fixture_store profiles alerts;
     alert_settings := default_settings;
     influencer_service :=
       {| inf_db := fixture_store profiles alerts;
          inf_settings := default_settings;
          ranking_agent := mock_agent |} |}.

Definition fresh_world : World := AlertService_init default_settings 1000.

Definition profile_of (username niche : string) (engagement : Q) (followers : Z)
    : gmap string PyVal :=
  {[ "username" := PStr username;
     "niche_label" := PStr niche;
     "average_engagement_rate" := PFloat engagement;
     "follower_count" := PInt followers ]}.

Definition rule_of (condition_type : string) (value : PyVal) (niche : PyVal)
    : gmap string PyVal :=
  {[ "condition_type" := PStr condition_type; "value" := value; "niche" := niche ]}.

Definition usernames (records : list (gmap string PyVal)) : list PyVal :=
  map (fun record => dict_get record "username") records.

Definition ann : gmap string PyVal := profile_of "ann" "Fitness" (52 # 10) 1200.
Definition bob : gmap string PyVal := profile_of "bob" "Fitness" 2 800.

Definition two_profiles : list (string * gmap string PyVal) :=
  [("a", ann); ("b", bob)].

(** [n] profiles [user1 .. usern] of engagement rate 1.0. *)
Definition numbered_profiles (n : nat) : list (string * gmap string PyVal) :=
  map (fun i => ("p" +:+ pretty i, profile_of ("user" +:+ pretty i) "Fitness" 1 100))
      (seq 1 n).

(** Twenty-five profiles of engagement rate 1.0 followed by one of 5.0. *)
Definition twenty_six_profiles : list (string * gmap string PyVal) :=
  numbered_profiles 25 ++ [("z", profile_of "zed" "Fitness" 5 100)].

(** A loaded model that raises on the profile of [bob] and predicts 50
    for every other profile. *)
Definition failing_model (features : gmap string PyVal) : option Q :=
  if py_eq (dict_get features "username") (PStr "bob") then None else Some 50%Q.

Definition failing_agent : RecommendationAgent := {| model := Some failing_model |}.

(** A profile on which the mock ranker itself raises. *)
Definition unscorable : gmap string PyVal :=
  <["Follower_Growth_Rate" := PStr "n/a"]> bob.

(** A profile whose growth rate is an [int] beyond the range of the
    floats. *)
Definition overflowing : gmap string PyVal :=
  <["Follower_Growth_Rate" := PInt (10 ^ 400)]> bob.



(** A profile that holds every field the response model requires. *)
Definition complete_profile (username : string) (engagement : Q) (followers : Z)
    : gmap string PyVal :=
  {[ "platform_id" := PStr ("ig-" +:+ username);
     "username" := PStr username;
     "platform" := PStr "instagram";
     "follower_count" := PInt followers;
     "engagement_rate" := PFloat engagement;
     "average_engagement_rate" := PFloat engagement;
     "niche_label" := PStr "Fitness";
     "last_updated" := PStr "2024-10-27T10:00:00Z" ]}.

Definition two_complete_profiles : list (string * gmap string PyVal) :=
  [("a", complete_profile "ann" (52 # 10) 1200);
   ("b", complete_profile "bob" 2 800)].

(** A validator without conversions: a value is acceptable when it has the
    declared type itself. *)
Definition exact_types : Validator := fun field_type v =>
  match field_type, v with
  | StrField, PStr _ => true
  | IntField, PInt _ => true
  | FloatField, PFloat _ => true
  | _, _ => false
  end.

(** A profile that is not of the niche a search asks for and whose
    engagement rate is not a number. *)
Definition odd_profile : gmap string PyVal :=
  {[ "username" := PStr "odd";
     "niche_label" := PStr "Travel";
     "average_engagement_rate" := PStr "n/a";
     "follower_count" := PInt 10 ]}.

(** * Properties *)

(** Closed goals are settled by evaluation: a conjunction is split, an
    equation is checked by computing both sides. *)
Ltac by_evaluation :=
  intros;
  repeat (match goal with |- _ ∧ _ => split end; intros);
  match goal with |- ?lhs = ?rhs => vm_cast_no_check (eq_refl rhs) end.

Lemma profile_of_well_formed id username niche engagement followers :
  0 <= followers →
  well_formed_profile (<["id" := PStr id]> (profile_of username niche engagement followers)).
Proof.
  intros Hfollowers. split; [|split].
  - exists (inject_Z followers). split; [reflexivity|].
    unfold Qle. simpl. lia.
  - by exists engagement.
  - by eexists.
Qed.


(** ** Scoped store *)

Section ScopedStore.
Context (fs : FirestoreService).

Lemma private_path_unbound collection_name :
  tenant_unbound fs →
  collection_path fs collection_name true = Raise auth_required.
Proof.
  unfold collection_path, _get_private_collection_path.
  intros [-> | ->]; reflexivity.
Qed.

Lemma public_path_with_tenant u collection_name :
  collection_path (with_tenant fs u) collection_name false
  = Ok (_get_public_collection_path fs collection_name).
Proof. reflexivity. Qed.
End ScopedStore.

Ltac run_store :=
  unfold unauthorized, succeeds_calling,
    get_document, get_collection, add_document, set_document, delete_document,
    mbind, M_bind, mret, M_ret, lift, call_store.

(** C5.  With no tenant identity bound, each of the five private-scope
    operations fails with the authentication error (and touches nothing);
    each public-scope operation returns, calling the store at the public
    path, whatever tenant identity is bound. *)
Theorem private_scope_needs_tenant_public_does_not
    (fs : FirestoreService) (collection_name doc_id : string)
    (data : gmap string PyVal) (merge : bool) (w : World) :
  tenant_unbound fs →
  (unauthorized (get_document fs collection_name doc_id true) w
   ∧ unauthorized (get_collection fs collection_name true) w
   ∧ unauthorized (set_document fs collection_name doc_id data true merge) w
   ∧ unauthorized (add_document fs collection_name data true) w
   ∧ unauthorized (delete_document fs collection_name doc_id true) w)
  ∧ ∀ u : option string,
      let fs' := with_tenant fs u in
      let path := _get_public_collection_path fs collection_name in
      succeeds_calling (get_document fs' collection_name doc_id false) w
        (DocumentGet (path +:+ "/" +:+ doc_id))
      ∧ succeeds_calling (get_collection fs' collection_name false) w
          (CollectionStream path)
      ∧ succeeds_calling (set_document fs' collection_name doc_id data false merge) w
          (DocumentSet (path +:+ "/" +:+ doc_id) data merge)
      ∧ succeeds_calling (add_document fs' collection_name data false) w
          (CollectionAdd path data)
      ∧ succeeds_calling (delete_document fs' collection_name doc_id false) w
          (DocumentDelete (path +:+ "/" +:+ doc_id)).
Proof.
  intros Hunbound. split.
  - run_store. rewrite !(private_path_unbound fs _ Hunbound). auto.
  - intros u fs' path. subst fs' path. run_store. simpl.
    repeat split; try (eexists; reflexivity).
    destruct (snap_exists _); eexists; reflexivity.
Qed.

Lemma private_scope_needs_tenant_public_does_not_witness :
  let fs := {| app_id := "app"; current_user_id := None; db := MockFirestoreClient |} in
  unauthorized (get_document fs "user_alerts" "a1" true) fresh_world
  ∧ succeeds_calling (get_document (with_tenant fs (Some "u1")) "user_alerts" "a1" false)
      fresh_world (DocumentGet "artifacts/app/public/data/user_alerts/a1").
Proof.
  intros fs.
  destruct (private_scope_needs_tenant_public_does_not fs "user_alerts" "a1" ∅ false
              fresh_world (or_introl eq_refl)) as [Hpriv Hpub].
  split.
  - exact (proj1 Hpriv).
  - exact (proj1 (Hpub (Some "u1"))).
Defined.

(** ** Running the store-calling functions *)

Lemma search_and_filter_influencers_run svc query_params w :
  search_and_filter_influencers svc query_params w
  = (search_listing svc query_params (public_pool (inf_db svc)),
     called w (CollectionStream
                 (_get_public_collection_path (inf_db svc) INFLUENCER_COLLECTION))).
Proof. reflexivity. Qed.

Lemma get_collection_private_run fs collection_name path w :
  collection_path fs collection_name true = Ok path →
  get_collection fs collection_name true w
  = (Ok (listed fs path), called w (CollectionStream path)).
Proof.
  intros Hpath. unfold get_collection, mbind, M_bind, lift. rewrite Hpath.
  reflexivity.
Qed.

(** ** The skip-if-too-soon gate *)

Section Gate.
Context (svc : AlertService).
Let interval : Q := inject_Z (ALERT_CHECK_INTERVAL_SECONDS (alert_settings svc)).
Let isvc : InfluencerService := influencer_service svc.
Let public_path : string :=
  _get_public_collection_path (inf_db isvc) INFLUENCER_COLLECTION.

Lemma evaluate_too_soon t w :
  (t - last_check_time w < interval)%Q →
  evaluate_all_alerts svc t w = (Ok [], w).
Proof.
  intros Hsoon. unfold evaluate_all_alerts, get_last_check_time, mbind, M_bind.
  fold interval.
  destruct (Qle_bool interval (t - last_check_time w)) eqn:Hle; [|reflexivity].
  apply Qle_bool_iff in Hle. lra.
Qed.

(** What a due invocation does, step by step. *)
Lemma evaluate_due t w :
  (interval <= t - last_check_time w)%Q →
  let w1 := called (checked_at w t) (CollectionStream public_path) in
  evaluate_all_alerts svc t w =
    match search_listing isvc ∅ (public_pool (inf_db isvc)) with
    | Raise e => (Raise e, w1)
    | Ok market_data =>
        match build_influencer_map market_data with
        | Raise e => (Raise e, w1)
        | Ok influencer_map =>
            match collection_path (alert_db svc) ALERT_COLLECTION true with
            | Raise e => (Raise e, w1)
            | Ok path =>
                (evaluate_alerts influencer_map (listed (alert_db svc) path),
                 called w1 (CollectionStream path))
            end
        end
    end.
Proof.
  intros Hdue w1. unfold evaluate_all_alerts, get_last_check_time.
  unfold mbind at 1, M_bind at 1. fold interval.
  apply Qle_bool_iff in Hdue. rewrite Hdue. cbn [negb].
  unfold mbind at 1, M_bind at 1, set_last_check_time at 1.
  unfold mbind at 1, M_bind at 1.
  rewrite search_and_filter_influencers_run. fold isvc public_path.
  change (called _ (CollectionStream public_path)) with w1.
  destruct (search_listing _ _ _) as [market_data|e]; [|reflexivity].
  unfold mbind at 1, M_bind at 1, lift at 1.
  destruct (build_influencer_map market_data) as [imap|e]; [|reflexivity].
  unfold mbind at 1, M_bind at 1.
  destruct (collection_path _ _ _) as [path|e] eqn:Hpath.
  - rewrite (get_collection_private_run _ _ _ _ Hpath). reflexivity.
  - unfold get_collection, mbind, M_bind, lift. rewrite Hpath. reflexivity.
Qed.

Lemma evaluate_due_world t w :
  (interval <= t - last_check_time w)%Q →
  let w' := snd (evaluate_all_alerts svc t w) in
  last_check_time w' = t
  ∧ (length (store_calls w) < length (store_calls w'))%nat.
Proof.
  intros Hdue. cbv zeta. rewrite (evaluate_due t w Hdue).
  destruct (search_listing _ _ _) as [market_data|e];
    [destruct (build_influencer_map market_data) as [imap|e];
     [destruct (collection_path _ _ _) as [path|e]|]|];
    simpl; rewrite ?length_app; simpl; split; try reflexivity; lia.
Qed.

Lemma evaluation_times_spaced times : ∀ w,
  spaced interval (last_check_time w) (evaluation_times svc times w).
Proof.
  induction times as [|t times IH]; intros w; simpl; [exact I|].
  destruct (Qlt_le_dec (t - last_check_time w) interval) as [Hsoon|Hdue].
  - rewrite (evaluate_too_soon t w Hsoon). simpl.
    rewrite Nat.ltb_irrefl. apply IH.
  - destruct (evaluate_due_world t w Hdue) as [Hlast Hcalls].
    apply Nat.ltb_lt in Hcalls. rewrite Hcalls. simpl.
    split; [exact Hdue|]. rewrite <- Hlast at 1. apply IH.
Qed.
End Gate.

(** C4.  An invocation less than [interval] seconds after the recorded
    check time returns the empty list and leaves the world as it was: no
    store call is made and the recorded time is not moved.  Over any
    sequence of invocations, each real evaluation is at least [interval]
    after the previous recorded one. *)
Theorem no_evaluation_within_interval
    (svc : AlertService) (t : Q) (w : World) :
  (t - last_check_time w
   < inject_Z (ALERT_CHECK_INTERVAL_SECONDS (alert_settings svc)))%Q →
  evaluate_all_alerts svc t w = (Ok [], w)
  ∧ ∀ (times : list Q) (w0 : World),
      spaced (inject_Z (ALERT_CHECK_INTERVAL_SECONDS (alert_settings svc)))
             (last_check_time w0) (evaluation_times svc times w0).
Proof.
  intros Hsoon. split.
  - apply evaluate_too_soon, Hsoon.
  - intros times w0. apply evaluation_times_spaced.
Qed.

Lemma no_evaluation_within_interval_witness :
  let svc := fixture_alerts [("a", profile_of "ann" "Fitness" (52 # 10) 1200)]
                            [("r1", rule_of "min_engagement_rate" (PFloat 3) PNone)] in
  let w1 := snd (evaluate_all_alerts svc 1000 fresh_world) in
  evaluate_all_alerts svc 1100 w1 = (Ok [], w1).
Proof.
  intros svc w1.
  refine (proj1 (no_evaluation_within_interval svc 1100 w1 _)).
  vm_compute. reflexivity.
Defined.

(** ** Alert rules *)

Section Rules.
Context (influencer_map : list (PyVal * gmap string PyVal)).

Lemma evaluate_alerts_app rules1 rules2 :
  evaluate_alerts influencer_map (rules1 ++ rules2) =
    (out1 ← evaluate_alerts influencer_map rules1;
     out2 ← evaluate_alerts influencer_map rules2;
     Ok (out1 ++ out2)).
Proof.
  induction rules1 as [|rule rules1 IH]; simpl.
  - unfold mbind, Res_bind. destruct (evaluate_alerts _ rules2); reflexivity.
  - unfold mbind, Res_bind in *.
    destruct (evaluate_alert influencer_map rule) as [o|e]; [|reflexivity].
    rewrite IH.
    destruct (evaluate_alerts _ rules1) as [out1|e]; [|reflexivity].
    destruct (evaluate_alerts _ rules2) as [out2|e]; [|reflexivity].
    by rewrite (assoc_L (++)).
Qed.

Lemma zero_is_falsy v : py_eq v (PInt 0) = true → truthy v = false.
Proof.
  destruct v as [|b|z|q|s]; unfold py_eq; simpl; try discriminate.
  - destruct b; [discriminate | reflexivity].
  - intros H. apply Qeq_bool_iff in H.
    assert (z = 0) as -> by (unfold Qeq in H; simpl in H; lia). reflexivity.
  - intros H. change (inject_Z 0) with 0%Q in H. by rewrite H.
Qed.

Lemma evaluate_alert_falsy alert :
  py_eq (dict_get alert "value") (PInt 0) = true
  ∨ dict_get alert "condition_type" = PStr "" →
  evaluate_alert influencer_map alert = Ok None.
Proof.
  unfold evaluate_alert. intros [Hzero | ->].
  - rewrite (zero_is_falsy _ Hzero). by rewrite orb_true_r.
  - reflexivity.
Qed.

Lemma evaluate_alerts_skip rules1 alert rules2 :
  evaluate_alert influencer_map alert = Ok None →
  evaluate_alerts influencer_map (rules1 ++ alert :: rules2)
  = evaluate_alerts influencer_map (rules1 ++ rules2).
Proof.
  intros Hskip. rewrite !evaluate_alerts_app. simpl. rewrite Hskip.
  unfold mbind, Res_bind.
  destruct (evaluate_alerts _ rules1); [|reflexivity].
  destruct (evaluate_alerts _ rules2); reflexivity.
Qed.
End Rules.

(** C10.  A rule whose threshold equals 0, or whose condition type is the
    empty string, appends nothing to the triggered alerts, whatever the
    profiles are: the loop over the rules yields what it yields without
    that rule, and the alerts a due evaluation cycle returns are those of
    the other rules of the private listing. *)
Theorem falsy_rule_is_skipped
    (svc : AlertService) (t : Q) (w : World) (path : string)
    (before : list (gmap string PyVal)) (alert : gmap string PyVal)
    (after : list (gmap string PyVal)) :
  py_eq (dict_get alert "value") (PInt 0) = true
  ∨ dict_get alert "condition_type" = PStr "" →
  (∀ influencer_map,
      evaluate_alert influencer_map alert = Ok None
      ∧ evaluate_alerts influencer_map (before ++ alert :: after)
        = evaluate_alerts influencer_map (before ++ after))
  ∧ ((inject_Z (ALERT_CHECK_INTERVAL_SECONDS (alert_settings svc))
      <= t - last_check_time w)%Q →
     collection_path (alert_db svc) ALERT_COLLECTION true = Ok path →
     listed (alert_db svc) path = before ++ alert :: after →
     ∀ triggered_alerts,
       fst (evaluate_all_alerts svc t w) = Ok triggered_alerts →
       ∃ market_data influencer_map,
         search_listing (influencer_service svc) ∅
           (public_pool (inf_db (influencer_service svc))) = Ok market_data
         ∧ build_influencer_map market_data = Ok influencer_map
         ∧ evaluate_alerts influencer_map (before ++ after) = Ok triggered_alerts).
Proof.
  intros Hfalsy. split.
  - intros influencer_map.
    pose proof (evaluate_alert_falsy influencer_map alert Hfalsy) as Hskip.
    split; [exact Hskip | by apply evaluate_alerts_skip].
  - intros Hdue Hpath Hlisted out. rewrite (evaluate_due svc t w Hdue).
    destruct (search_listing _ _ _) as [market_data|e] eqn:Hsearch; [|discriminate].
    destruct (build_influencer_map market_data) as [imap|e] eqn:Hmap; [|discriminate].
    rewrite Hpath, Hlisted. cbn [fst]. intros Hout.
    exists market_data, imap. split; [reflexivity|]. split; [exact Hmap|].
    rewrite evaluate_alerts_skip in Hout by (by apply evaluate_alert_falsy).
    exact Hout.
Qed.

Lemma falsy_rule_is_skipped_witness :
  evaluate_alert [(PStr "a", profile_of "ann" "Fitness" (52 # 10) 1200)]
    (rule_of "min_engagement_rate" (PFloat 0) (PStr "Fitness")) = Ok None.
Proof.
  refine (proj1 (proj1 (falsy_rule_is_skipped
                          (fixture_alerts [] []) 1000 fresh_world "" [] _ [] _) _)).
  left. vm_compute. reflexivity.
Defined.

(** ** The stable descending sort *)

Section Sorting.
Context {A : Type} (key : A → Q).

Lemma insert_reverse_perm x l : insert_reverse key x l ≡ₚ x :: l.
Proof.
  induction l as [|y l IH]; simpl; [reflexivity|].
  destruct (negb (Qle_bool (key y) (key x))); [|reflexivity].
  rewrite IH. apply Permutation_swap.
Qed.

Lemma sorted_reverse_perm l : sorted_reverse key l ≡ₚ l.
Proof.
  induction l as [|x l IH]; simpl; [reflexivity|].
  by rewrite insert_reverse_perm, IH.
Qed.

Lemma sorted_reverse_length l : length (sorted_reverse key l) = length l.
Proof. by rewrite sorted_reverse_perm. Qed.

Lemma insert_reverse_sorted x l :
  StronglySorted (key_ge key) l →
  StronglySorted (key_ge key) (insert_reverse key x l).
Proof.
  induction 1 as [|y l Hsorted IH Hy]; simpl.
  - repeat constructor.
  - destruct (Qle_bool (key y) (key x)) eqn:Hle; simpl.
    + apply Qle_bool_iff in Hle.
      constructor; [by constructor|].
      constructor; [exact Hle|].
      eapply Forall_impl; [exact Hy|]. unfold key_ge. intros z Hz. lra.
    + constructor; [exact IH|].
      rewrite insert_reverse_perm. constructor; [|exact Hy].
      unfold key_ge. destruct (Qlt_le_dec (key x) (key y)) as [Hlt|Hge]; [lra|].
      apply Qle_bool_iff in Hge. congruence.
Qed.

Lemma sorted_reverse_sorted l : StronglySorted (key_ge key) (sorted_reverse key l).
Proof.
  induction l as [|x l IH]; simpl; [constructor|].
  by apply insert_reverse_sorted.
Qed.





End Sorting.

(** ** Search: filtering, scoring, ranking *)

Section Scoring.
Context (agent : RecommendationAgent).

Lemma augment_score profile record :
  augment agent profile = Ok record →
  ∃ prediction,
    predict agent profile = Ok prediction
    ∧ record !! "market_score" = Some (PFloat (Market_Value_Score prediction))
    ∧ market_score_key record = Market_Value_Score prediction.
Proof.
  unfold augment, mbind, Res_bind.
  destruct (predict agent profile) as [prediction|e]; [|discriminate].
  intros [= <-]. exists prediction. split; [reflexivity|].
  unfold market_score_key, dict_get_or. by simplify_map_eq.
Qed.

Lemma augment_lookup profile record k :
  augment agent profile = Ok record →
  k ≠ "market_score" → k ≠ "market_tier" →
  record !! k = profile !! k.
Proof.
  unfold augment, mbind, Res_bind.
  destruct (predict agent profile) as [prediction|e]; [|discriminate].
  intros [= <-] ? ?. by simplify_map_eq.
Qed.

(** The loop keeps the survivors, scored, in listing order. *)
Lemma filter_and_score_survivors query_params raw_results filtered :
  filter_and_score agent query_params raw_results = Ok filtered →
  scored_from agent (survivors query_params raw_results) filtered.
Proof.
  unfold scored_from, survivors, passes.
  revert filtered. induction raw_results as [|profile rest IH]; intros filtered.
  - intros [= <-]. constructor.
  - cbn [filter_and_score List.filter]. unfold mbind, Res_bind.
    destruct (passes_filters query_params profile) as [[|]|e]; try discriminate.
    + destruct (augment agent profile) as [record|e] eqn:Haug; [|discriminate].
      destruct (filter_and_score agent query_params rest) as [filtered'|e];
        [|discriminate].
      intros [= <-]. constructor; [exact Haug | by apply IH].
    + apply IH.
Qed.



Lemma filter_and_score_has_score query_params raw_results filtered :
  filter_and_score agent query_params raw_results = Ok filtered →
  Forall (fun record => ∃ s, record !! "market_score" = Some (PFloat s)) filtered.
Proof.
  intros Hloop. apply filter_and_score_survivors in Hloop.
  induction Hloop as [|profile record ? ? Haug _ IH]; constructor; [|exact IH].
  apply augment_score in Haug as (prediction & _ & Hscore & _). eauto.
Qed.

End Scoring.

Section Search.
Context (svc : InfluencerService).
Let agent := ranking_agent svc.

Lemma ranked_listing_ranked query_params raw_results sorted_results :
  ranked_listing svc query_params raw_results = Ok sorted_results →
  ∃ filtered,
    filter_and_score agent query_params raw_results = Ok filtered
    ∧ sorted_results = sorted_reverse market_score_key filtered.
Proof.
  unfold ranked_listing, mbind, Res_bind. fold agent.
  destruct (filter_and_score agent query_params raw_results) as [filtered|e];
    [|discriminate].
  intros [= <-]. eauto.
Qed.

Lemma take_limit_sublist (l res : list (gmap string PyVal)) limit :
  take_limit l limit = Ok res → res `sublist_of` l.
Proof.
  destruct limit; simpl; try discriminate; intros [= <-];
    try reflexivity; apply sublist_take.
Qed.




End Search.


(** ** Pagination and the free-text parameter of the endpoint *)

Section Endpoint.
Context (accepts : Validator) (svc : InfluencerService).

Lemma take_limit_length {A} (l res : list A) (limit : Z) :
  0 <= limit → take_limit l (PInt limit) = Ok res →
  Z.of_nat (length res) <= limit.
Proof.
  intros Hlimit [= <-]. unfold py_slice_to, slice_index.
  rewrite length_take. destruct (Z.ltb_spec limit 0); lia.
Qed.

(** The service list, cut at [limit], is never longer than [limit]. *)
Lemma search_listing_length q niche min_engagement min_followers page limit res :
  0 <= limit →
  search_listing svc (search_params q niche min_engagement min_followers page limit)
    (public_pool (inf_db svc)) = Ok res →
  Z.of_nat (length res) <= limit.
Proof.
  intros Hlimit. unfold search_listing, mbind, Res_bind.
  destruct (ranked_listing _ _ _) as [sorted_results|e]; [|discriminate].
  apply take_limit_length, Hlimit.
Qed.

Lemma py_slice_length {A} (l : list A) start limit :
  0 <= start → 0 <= limit →
  Z.of_nat (length (py_slice l start (start + limit))) <= limit.
Proof.
  intros Hstart Hlimit. unfold py_slice, slice_index.
  rewrite length_take, length_drop.
  destruct (Z.ltb_spec start 0), (Z.ltb_spec (start + limit) 0); lia.
Qed.

Lemma py_slice_beyond {A} (l : list A) start stop :
  Z.of_nat (length l) <= start → py_slice l start stop = [].
Proof.
  intros Hstart. unfold py_slice.
  assert (slice_index l start = length l) as ->.
  { unfold slice_index. destruct (Z.ltb_spec start 0); lia. }
  by rewrite drop_all, take_nil.
Qed.

Lemma SearchResult_init_results count page_size page paginated_results response :
  SearchResult_init accepts count page_size page paginated_results = Ok response →
  results response = paginated_results.
Proof.
  unfold SearchResult_init. destruct (forallb _ _); [|discriminate]. by intros [= <-].
Qed.

Lemma forallb_false_elem {A} (f : A → bool) (l : list A) :
  forallb f l = false → ∃ x, x ∈ l ∧ f x = false.
Proof.
  induction l as [|x l IH]; [discriminate|]. cbn [forallb].
  destruct (f x) eqn:Hx; cbn [andb].
  - intros (y & Hy & Hfy)%IH. exists y. split; [by apply list_elem_of_further | exact Hfy].
  - intros _. exists x. split; [apply list_elem_of_here | exact Hx].
Qed.

Lemma SearchResult_init_raises count page_size page paginated_results e :
  SearchResult_init accepts count page_size page paginated_results = Raise e →
  e = ValidationError
  ∧ ∃ record, record ∈ paginated_results
              ∧ validates accepts InfluencerProfile record = false.
Proof.
  unfold SearchResult_init.
  destruct (forallb _ _) eqn:Hall; [discriminate|]. intros [= <-]. split; [reflexivity|].
  by apply forallb_false_elem.
Qed.

(** What the handler does, step by step. *)
Lemma search_influencers_run q niche min_engagement min_followers page limit w :
  search_influencers accepts svc q niche min_engagement min_followers page limit w
  = (match search_listing svc
             (search_params q niche min_engagement min_followers page limit)
             (public_pool (inf_db svc)) with
     | Ok all_results =>
         match SearchResult_init accepts (Z.of_nat (length all_results) * 2) limit page
                 (py_slice all_results ((page - 1) * limit) ((page - 1) * limit + limit)) with
         | Ok response => Ok response
         | Raise e => Raise (HTTPException 500 ("Search operation failed: " +:+ class_name e))
         end
     | Raise e => Raise (HTTPException 500 ("Search operation failed: " +:+ class_name e))
     end,
     called w (CollectionStream
                 (_get_public_collection_path (inf_db svc) INFLUENCER_COLLECTION))).
Proof.
  unfold search_influencers, search_page. unfold mbind at 1, M_bind at 1.
  rewrite search_and_filter_influencers_run.
  destruct (search_listing _ _ _) as [all_results|e]; [|reflexivity].
  unfold lift. by destruct (SearchResult_init _ _ _ _ _).
Qed.

(** A page the handler returns is the slice it cut from the service list. *)
Lemma search_influencers_returns q niche min_engagement min_followers page limit w
    response w' :
  search_influencers accepts svc q niche min_engagement min_followers page limit w
  = (Ok response, w') →
  ∃ all_results,
    search_listing svc (search_params q niche min_engagement min_followers page limit)
      (public_pool (inf_db svc)) = Ok all_results
    ∧ results response
      = py_slice all_results ((page - 1) * limit) ((page - 1) * limit + limit).
Proof.
  rewrite search_influencers_run.
  destruct (search_listing _ _ _) as [all_results|e]; [|discriminate].
  destruct (SearchResult_init _ _ _ _ _) as [response'|e] eqn:Hinit; [|discriminate].
  intros [= <- _]. exists all_results. split; [reflexivity|].
  by eapply SearchResult_init_results.
Qed.

(** X21.  No page is longer than the page size. *)
Lemma page_length q niche min_engagement min_followers page limit w response w' :
  1 <= limit → 1 <= page →
  search_influencers accepts svc q niche min_engagement min_followers page limit w
  = (Ok response, w') →
  Z.of_nat (length (results response)) <= limit.
Proof.
  intros Hlimit Hpage (all_results & _ & ->)%search_influencers_returns.
  apply py_slice_length; nia.
Qed.

(** X22.  Every page after the first is empty: the service has already cut
    the list at [limit], and the handler starts its slice at
    [(page - 1) * limit]. *)
Lemma later_pages_empty q niche min_engagement min_followers page limit w response w' :
  1 <= limit → 2 <= page →
  search_influencers accepts svc q niche min_engagement min_followers page limit w
  = (Ok response, w') →
  results response = [].
Proof.
  intros Hlimit Hpage (all_results & Hres & ->)%search_influencers_returns.
  apply search_listing_length in Hres; [|lia].
  apply py_slice_beyond. nia.
Qed.

Lemma filter_and_score_ext agent query_params query_params' raw_results :
  (∀ profile, passes_filters query_params profile = passes_filters query_params' profile) →
  filter_and_score agent query_params raw_results
  = filter_and_score agent query_params' raw_results.
Proof.
  intros Hsame. induction raw_results as [|profile rest IH]; [reflexivity|].
  cbn [filter_and_score]. by rewrite Hsame, IH.
Qed.

Lemma search_listing_without_free_text q niche min_engagement min_followers page limit :
  search_listing svc (search_params q niche min_engagement min_followers page limit)
    (public_pool (inf_db svc))
  = search_listing svc (search_params None niche min_engagement min_followers page limit)
      (public_pool (inf_db svc)).
Proof.
  unfold search_listing, ranked_listing.
  rewrite (filter_and_score_ext _ _
             (search_params None niche min_engagement min_followers page limit));
    reflexivity.
Qed.

(** X23.  The service never reads the key ["q"]: the endpoint answers as if
    no free-text query had been given. *)
Lemma search_ignores_free_text q niche min_engagement min_followers page limit w :
  search_influencers accepts svc q niche min_engagement min_followers page limit w
  = search_influencers accepts svc None niche min_engagement min_followers page limit w.
Proof.
  rewrite !search_influencers_run. by rewrite search_listing_without_free_text.
Qed.
End Endpoint.

(** C1.  The endpoint at the failing input: a pool of two profiles, page
    size 1, page 2.  The unpaginated scored and sorted listing is
    [ann; bob], so item 0 of page 2 is to be [bob], the item at offset
    [(2 - 1) * 1 + 0].  The service, asked for page 2 of size 1, returns the
    listing cut at 1, which is [ann]; the handler slices that list from
    offset 1, and the page it returns is empty (an empty page validates
    whatever the validator accepts).  In general: [later_pages_empty]. *)
Theorem second_page_is_empty :
  let svc := fixture_search mock_agent two_profiles in
  usernames <$> ranked_listing svc (search_params None None 0 0 2 1)
                  (public_pool (inf_db svc))
  = Ok [PStr "ann"; PStr "bob"]
  ∧ usernames <$> fst (search_and_filter_influencers svc
                         (search_params None None 0 0 2 1) fresh_world)
    = Ok [PStr "ann"]
  ∧ ∀ accepts : Validator,
      results <$> fst (search_influencers accepts svc None None 0 0 2 1 fresh_world)
      = Ok [].
Proof. by_evaluation. Qed.

(** C7.  The service at the failing input: the free-text query ["zzz"]
    occurs in no username and no bio of the pool, and the service, given
    the parameters the handler builds for that query, returns every profile
    all the same.  In general the answer does not depend on the query:
    [search_ignores_free_text]. *)
Theorem free_text_query_is_not_applied :
  let svc := fixture_search mock_agent two_profiles in
  matches_free_text "zzz" ann = false
  ∧ matches_free_text "zzz" bob = false
  ∧ usernames <$> fst (search_and_filter_influencers svc
                         (search_params (Some "zzz") None 0 0 1 20) fresh_world)
    = Ok [PStr "ann"; PStr "bob"].
Proof. by_evaluation. Qed.


(** ** The pool an evaluation cycle scans *)

(** X24.  The cycle scans what search returns for the empty predicate set,
    which is cut at [DEFAULT_SEARCH_LIMIT]. *)
Lemma evaluation_scans_at_most_limit (svc : InfluencerService) market_data :
  0 <= DEFAULT_SEARCH_LIMIT (inf_settings svc) →
  search_listing svc ∅ (public_pool (inf_db svc)) = Ok market_data →
  Z.of_nat (length market_data) <= DEFAULT_SEARCH_LIMIT (inf_settings svc).
Proof.
  intros Hlimit. unfold search_listing, mbind, Res_bind.
  destruct (ranked_listing _ _ _) as [sorted_results|e]; [|discriminate].
  apply take_limit_length, Hlimit.
Qed.

(** C3.  The evaluation cycle at the failing input: the public pool lists
    twenty-six profiles, the last of which, [zed], is the only one the rule
    [min_engagement_rate >= 3.0] matches; the cycle scans the twenty-five
    profiles search returns and triggers nothing.  A rule stored with
    [is_active = False] is evaluated like any other. *)
Theorem evaluation_pool_is_truncated :
  let rule := rule_of "min_engagement_rate" (PFloat 3) (PStr "Fitness") in
  let svc := fixture_alerts twenty_six_profiles [("r1", rule)] in
  let pool := public_pool (alert_db svc) in
  let inactive := <["is_active" := PBool false]> rule in
  (length pool = 26%nat
   ∧ usernames pool !! 25%nat = Some (PStr "zed")
   ∧ qualifies rule 3 <$> pool = replicate 25 false ++ [true]
   ∧ option_map triggered_on
       <$> evaluate_alert ((fun record => (record_id record, record)) <$> pool) rule
     = Ok (Some (PStr "zed"))
   ∧ length <$> search_listing (influencer_service svc) ∅ pool = Ok 25%nat
   ∧ fst (evaluate_all_alerts svc 1000 fresh_world) = Ok [])
  ∧ (map triggered_on
       <$> fst (evaluate_all_alerts (fixture_alerts two_profiles [("r2", inactive)])
                  1000 fresh_world))
    = Ok [PStr "ann"].
Proof. by_evaluation. Qed.


(** ** A rule on the engagement rate *)

Section EngagementRule.
Context (rule : gmap string PyVal) (T : Q).
Hypothesis rule_condition : dict_get rule "condition_type" = PStr "min_engagement_rate".
Hypothesis rule_threshold : as_num (dict_get rule "value") = Some T.

Lemma nonzero_is_truthy v q : as_num v = Some q → ¬ (q == 0)%Q → truthy v = true.
Proof.
  destruct v as [|b|z|q'|s]; simpl; try discriminate; intros [= <-] Hnz.
  - destruct b; [reflexivity|]. by destruct Hnz.
  - destruct (Z.eqb_spec z 0) as [->|]; [by destruct Hnz | reflexivity].
  - destruct (Qeq_bool q' 0) eqn:Hq; [|reflexivity].
    apply Qeq_bool_iff in Hq. contradiction.
Qed.



End EngagementRule.

(** ** The influencer map of a cycle over a small, well-formed pool *)



Lemma predict_total agent profile s :
  _mock_rank_score profile = Ok s → ∃ prediction, predict agent profile = Ok prediction.
Proof.
  intros Hmock. unfold predict. rewrite Hmock.
  destruct (model agent) as [m|]; [destruct (m profile)|];
    cbn [mbind Res_bind];
    repeat match goal with |- context [if ?b then _ else _] => destruct b end;
    eauto.
Qed.

Lemma augment_total agent profile :
  well_formed_profile profile → ∃ record, augment agent profile = Ok record.
Proof.
  intros (_ & _ & s & Hmock).
  destruct (predict_total agent profile s Hmock) as [prediction Hpredict].
  unfold augment. rewrite Hpredict. cbn [mbind Res_bind]. eauto.
Qed.



Lemma listed_has_id fs path record :
  record ∈ listed fs path → ∃ i, record !! "id" = Some (PStr i).
Proof.
  unfold listed. rewrite list_elem_of_omap. intros (doc & _ & Hrecord).
  unfold snapshot_record in Hrecord. destruct (snap_exists doc); [|discriminate].
  injection Hrecord as <-. exists (snap_id doc). by simplify_map_eq.
Qed.








Section Cycle.
Context (svc : AlertService) (t : Q) (w : World).
Let isvc : InfluencerService := influencer_service svc.
Let pool : list (gmap string PyVal) := public_pool (inf_db isvc).

Hypothesis cycle_due :
  (inject_Z (ALERT_CHECK_INTERVAL_SECONDS (alert_settings svc))
   <= t - last_check_time w)%Q.
Hypothesis pool_well_formed : Forall well_formed_profile pool.
Hypothesis pool_within_limit :
  Z.of_nat (length pool) <= DEFAULT_SEARCH_LIMIT (inf_settings isvc).
Hypothesis pool_ids_distinct : NoDup (record_id <$> pool).

End Cycle.








(** ** A scoring failure inside the ranker *)

Section Fallback.
Context (agent : RecommendationAgent).

Lemma predict_score profile s :
  (match model agent with
   | None => _mock_rank_score profile
   | Some m => match m profile with
               | Some s' => Ok s'
               | None => _mock_rank_score profile
               end
   end) = Ok s →
  ∃ prediction,
    predict agent profile = Ok prediction
    ∧ Market_Value_Score prediction = py_round (np_clip s 1 100) 2.
Proof.
  intros Hscore. unfold predict. rewrite Hscore. cbn [mbind Res_bind].
  repeat match goal with |- context [if ?b then _ else _] => destruct b end;
    eexists; split; reflexivity.
Qed.

(** When the loaded model raises, [predict] answers with the mock rank
    score. *)
Lemma predict_fallback m profile s :
  model agent = Some m → m profile = None → _mock_rank_score profile = Ok s →
  ∃ prediction,
    predict agent profile = Ok prediction
    ∧ Market_Value_Score prediction = py_round (np_clip s 1 100) 2.
Proof.
  intros Hmodel Hfail Hmock. apply predict_score. by rewrite Hmodel, Hfail.
Qed.

(** The loop stops at the first profile that passes the filters and on
    which [predict] raises. *)
Lemma filter_and_score_aborts query_params before failed after e : ∀ scored_before,
  filter_and_score agent query_params before = Ok scored_before →
  passes_filters query_params failed = Ok true →
  predict agent failed = Raise e →
  filter_and_score agent query_params (before ++ failed :: after) = Raise e.
Proof.
  induction before as [|profile before IH]; intros scored_before Hbefore Hpass Hpredict.
  - cbn [app filter_and_score]. rewrite Hpass. cbn [mbind Res_bind].
    unfold augment. by rewrite Hpredict.
  - cbn [app filter_and_score] in *. unfold mbind, Res_bind in *.
    destruct (passes_filters query_params profile) as [[|]|e']; try discriminate.
    + destruct (augment agent profile) as [record|e']; [|discriminate].
      destruct (filter_and_score agent query_params before) as [scored|e'] eqn:Hloop;
        [|discriminate].
      by rewrite (IH scored).
    + by apply (IH scored_before).
Qed.
End Fallback.

(** C6.  A scoring failure aborts the search.  [predict] contains a failure
    of the loaded model (it falls back to the mock rank score:
    [predict_fallback]), but when [predict] itself raises on a profile that
    passed the filters, the loop of the search has no handler: the
    exception leaves the service, nothing is computed from the remaining
    records, and the endpoint answers with status 500 and the name of the
    exception.  ([get_influencer_profile] contains the same failure:
    [get_influencer_profile_never_raises].) *)
Theorem scoring_failure_aborts_search
    (svc : InfluencerService) (query_params : gmap string PyVal) (w : World)
    (before : list (gmap string PyVal)) (failed : gmap string PyVal)
    (after scored_before : list (gmap string PyVal)) (e : PyErr) :
  public_pool (inf_db svc) = before ++ failed :: after →
  filter_and_score (ranking_agent svc) query_params before = Ok scored_before →
  passes_filters query_params failed = Ok true →
  predict (ranking_agent svc) failed = Raise e →
  fst (search_and_filter_influencers svc query_params w) = Raise e
  ∧ ∀ accepts q niche min_engagement min_followers page limit,
      query_params = search_params q niche min_engagement min_followers page limit →
      fst (search_influencers accepts svc q niche min_engagement min_followers page limit w)
      = Raise (HTTPException 500 ("Search operation failed: " +:+ class_name e)).
Proof.
  intros Hpool Hbefore Hpass Hpredict.
  assert (search_listing svc query_params (public_pool (inf_db svc)) = Raise e) as Hsearch.
  { unfold search_listing, ranked_listing. rewrite Hpool.
    by rewrite (filter_and_score_aborts _ _ _ _ _ _ _ Hbefore Hpass Hpredict). }
  split.
  - rewrite search_and_filter_influencers_run. by rewrite Hsearch.
  - intros accepts q niche min_engagement min_followers page limit Hparams.
    rewrite search_influencers_run, <- Hparams. by rewrite Hsearch.
Qed.

Lemma scoring_failure_aborts_search_witness :
  let svc := fixture_search mock_agent [("a", ann); ("b", unscorable)] in
  fst (search_and_filter_influencers svc (search_params None None 0 0 1 20) fresh_world)
  = Raise TypeError
  ∧ ∀ accepts,
      fst (search_influencers accepts svc None None 0 0 1 20 fresh_world)
      = Raise (HTTPException 500 "Search operation failed: TypeError").
Proof.
  intros svc.
  pose (scored_before :=
          match filter_and_score mock_agent (search_params None None 0 0 1 20)
                  [<["id" := PStr "a"]> ann] with
          | Ok scored => scored
          | Raise _ => []
          end).
  destruct (scoring_failure_aborts_search svc (search_params None None 0 0 1 20)
              fresh_world [<["id" := PStr "a"]> ann] (<["id" := PStr "b"]> unscorable) []
              scored_before TypeError
              ltac:(by_evaluation) ltac:(by_evaluation) ltac:(by_evaluation)
              ltac:(by_evaluation)) as [Hservice Hendpoint].
  split; [exact Hservice|].
  intros accepts. exact (Hendpoint accepts None None 0%Q 0 1 20 eq_refl).
Defined.

(** ** Predicates *)

Lemma py_lt_false_ge a b : py_lt a b = Ok false → py_ge a b = Ok true.
Proof.
  unfold py_lt, py_ge, py_le.
  destruct (as_num a) as [x|] eqn:Ha, (as_num b) as [y|] eqn:Hb.
  - intros [= H]. by apply negb_false_iff in H as ->.
  - destruct a, b; try discriminate.
  - destruct a, b; try discriminate.
  - destruct a as [| | | |s], b as [| | | |u]; try discriminate.
    unfold String.ltb, String.leb. rewrite (String.compare_antisym u s).
    by destruct (String.compare s u).
Qed.

Lemma passes_satisfies query_params profile :
  passes_filters query_params profile = Ok true →
  Forall (satisfies profile) (applied_predicates query_params).
Proof.
  unfold passes_filters, py_ne, applied_predicates. intros Hpass.
  destruct (truthy (dict_get query_params "niche"));
    [destruct (py_eq (dict_get profile "niche_label") _) eqn:Hniche; [|discriminate]|];
    cbn [andb negb] in Hpass;
    (destruct (truthy (dict_get query_params "min_engagement_rate"));
     [destruct (py_lt _ _) as [[|]|e] eqn:Hrate; try discriminate|]);
    cbn [mbind Res_bind] in Hpass;
    (destruct (py_le (dict_get_or query_params "min_followers" (PInt 0)) _)
       as [[|]|e] eqn:Hlower; try discriminate);
    cbn [mbind Res_bind] in Hpass;
    repeat (apply Forall_app; split);
    destruct (query_params !! "max_followers");
    repeat constructor; cbn [satisfies]; auto using py_lt_false_ge.
Qed.

Lemma satisfies_augment agent profile record predicate :
  augment agent profile = Ok record →
  satisfies record predicate ↔ satisfies profile predicate.
Proof.
  intros Haug. destruct predicate; cbn [satisfies]; unfold dict_get, dict_get_or;
    by rewrite (augment_lookup _ _ _ _ Haug).
Qed.

(** Every record search returns is a profile of the pool that passed the
    filters, with its score attached. *)
Lemma search_listing_members svc query_params raw_results res record :
  search_listing svc query_params raw_results = Ok res →
  record ∈ res →
  ∃ profile,
    profile ∈ raw_results
    ∧ passes_filters query_params profile = Ok true
    ∧ augment (ranking_agent svc) profile = Ok record.
Proof.
  unfold search_listing, mbind, Res_bind.
  destruct (ranked_listing svc query_params raw_results) as [sorted_results|e] eqn:Hr;
    [|discriminate].
  apply ranked_listing_ranked in Hr as (filtered & Hloop & ->).
  intros Hlimit Hrecord.
  apply take_limit_sublist in Hlimit.
  apply (sublist_subseteq _ _ Hlimit) in Hrecord.
  rewrite sorted_reverse_perm in Hrecord.
  apply filter_and_score_survivors in Hloop.
  destruct (proj1 (list_elem_of_lookup _ _) Hrecord) as [i Hi].
  destruct (Forall2_lookup_r _ _ _ _ _ Hloop Hi) as (profile & Hp & Haug).
  exists profile. apply list_elem_of_lookup_2 in Hp.
  unfold survivors in Hp. apply list_elem_of_In, filter_In in Hp as [Hin Hpass].
  split; [by apply list_elem_of_In|]. split; [|exact Haug].
  unfold passes in Hpass.
  by destruct (passes_filters query_params profile) as [[|]|].
Qed.

Lemma dict_get_delete_eq (d : gmap string PyVal) k : dict_get (delete k d) k = PNone.
Proof. unfold dict_get. by rewrite lookup_delete_eq. Qed.

Lemma dict_get_delete_ne (d : gmap string PyVal) k k' :
  k ≠ k' → dict_get (delete k d) k' = dict_get d k'.
Proof. intros. unfold dict_get. by rewrite lookup_delete_ne. Qed.

Lemma dict_get_or_delete_eq (d : gmap string PyVal) k v :
  dict_get_or (delete k d) k v = v.
Proof. unfold dict_get_or. by rewrite lookup_delete_eq. Qed.

Lemma dict_get_or_delete_ne (d : gmap string PyVal) k k' v :
  k ≠ k' → dict_get_or (delete k d) k' v = dict_get_or d k' v.
Proof. intros. unfold dict_get_or. by rewrite lookup_delete_ne. Qed.

Ltac forget_other_keys :=
  rewrite ?dict_get_delete_eq, ?dict_get_or_delete_eq, ?lookup_delete_eq,
    ?dict_get_delete_ne, ?dict_get_or_delete_ne, ?lookup_delete_ne by done.

(** Dropping a parameter keeps every profile that passed, as long as its
    follower count is a non-negative number. *)
Lemma passes_filters_delete query_params k profile :
  nonnegative_followers profile →
  passes_filters query_params profile = Ok true →
  passes_filters (delete k query_params) profile = Ok true.
Proof.
  intros (n & Hn & Hpos) Hpass. apply Qle_bool_iff in Hpos.
  unfold passes_filters, py_ne in *.
  destruct (truthy (dict_get query_params "niche")
            && negb (py_eq (dict_get profile "niche_label")
                           (dict_get query_params "niche"))) eqn:Hniche;
    [discriminate|].
  assert ((if truthy (dict_get query_params "min_engagement_rate")
           then py_lt (dict_get_or profile "average_engagement_rate" (PInt 0))
                      (dict_get query_params "min_engagement_rate")
           else Ok false) = Ok false) as Hrate.
  { destruct (truthy (dict_get query_params "min_engagement_rate"));
      [destruct (py_lt _ _) as [[|]|e]; try discriminate|]; reflexivity. }
  rewrite Hrate in Hpass. cbn [mbind Res_bind] in Hpass.
  destruct (py_le (dict_get_or query_params "min_followers" (PInt 0)) _)
    as [[|]|e] eqn:Hlower; try discriminate.
  cbn [mbind Res_bind] in Hpass.
  destruct (decide (k = "niche")) as [->|];
    [|destruct (decide (k = "min_engagement_rate")) as [->|];
      [|destruct (decide (k = "min_followers")) as [->|];
        [|destruct (decide (k = "max_followers")) as [->|]]]];
    forget_other_keys; cbn [truthy andb];
    rewrite ?Hniche, ?Hrate, ?Hlower; cbn [mbind Res_bind]; try exact Hpass.
  - assert (py_le (PInt 0) (dict_get_or profile "follower_count" (PInt 0)) = Ok true)
      as -> by (unfold py_le; rewrite Hn; cbn [as_num];
                change (inject_Z 0) with 0%Q; by rewrite Hpos).
    exact Hpass.
  - unfold py_le_inf. by rewrite Hn.
Qed.

(** A predicate set that lets pass whatever another one lets pass keeps,
    in order, every record the other one keeps. *)
Lemma filter_and_score_sublist agent query_params query_params' raw_results :
  ∀ filtered filtered',
  Forall (fun profile => passes_filters query_params profile = Ok true →
                         passes_filters query_params' profile = Ok true) raw_results →
  filter_and_score agent query_params raw_results = Ok filtered →
  filter_and_score agent query_params' raw_results = Ok filtered' →
  filtered `sublist_of` filtered'.
Proof.
  induction raw_results as [|profile rest IH]; intros filtered filtered' Hweaker.
  - intros [= <-] [= <-]. constructor.
  - apply Forall_cons in Hweaker as [Hprofile Hweaker].
    cbn [filter_and_score]. unfold mbind, Res_bind.
    destruct (passes_filters query_params profile) as [[|]|e]; try discriminate.
    + rewrite (Hprofile eq_refl).
      destruct (augment agent profile) as [record|e]; [|discriminate].
      destruct (filter_and_score agent query_params rest) as [kept|e]; [|discriminate].
      destruct (filter_and_score agent query_params' rest) as [kept'|e]; [|discriminate].
      intros [= <-] [= <-]. apply sublist_skip. by apply IH.
    + destruct (passes_filters query_params' profile) as [[|]|e]; try discriminate.
      * destruct (augment agent profile) as [record|e]; [|discriminate].
        destruct (filter_and_score agent query_params' rest) as [kept'|e]; [|discriminate].
        intros Hkept [= <-]. apply sublist_cons. by apply IH.
      * by apply IH.
Qed.

Lemma numeric_parameters_delete query_params k :
  numeric_parameters query_params → numeric_parameters (delete k query_params).
Proof.
  unfold numeric_parameters, dict_get_or. intros (Hrate & Hlower & Hupper).
  repeat split;
    match goal with
    | |- context [delete k query_params !! ?k'] =>
        destruct (decide (k = k')) as [->|];
        [rewrite lookup_delete_eq; by eexists | by rewrite lookup_delete_ne]
    end.
Qed.

(** Between numbers no comparison of the filters raises. *)
Lemma passes_filters_returns query_params profile :
  numeric_parameters query_params →
  well_formed_profile profile →
  ∃ b, passes_filters query_params profile = Ok b.
Proof.
  intros ([r Hr] & [lo Hlo] & [hi Hhi]) ((n & Hn & _) & [e He] & _).
  unfold passes_filters.
  destruct (truthy (dict_get query_params "niche") && _); [by eexists|].
  assert (∃ below,
            (if truthy (dict_get query_params "min_engagement_rate")
             then py_lt (dict_get_or profile "average_engagement_rate" (PInt 0))
                        (dict_get query_params "min_engagement_rate")
             else Ok false) = Ok below) as [below ->].
  { unfold dict_get, dict_get_or in *.
    destruct (query_params !! "min_engagement_rate") as [v|];
      cbn [default from_option id] in *; [|by eexists].
    destruct (truthy v); [|by eexists].
    unfold py_lt. rewrite He, Hr. by eexists. }
  cbn [mbind Res_bind]. destruct below; [by eexists|].
  assert (py_le (dict_get_or query_params "min_followers" (PInt 0))
                (dict_get_or profile "follower_count" (PInt 0))
          = Ok (Qle_bool lo n)) as ->
    by (unfold py_le; by rewrite Hlo, Hn).
  cbn [mbind Res_bind]. destruct (Qle_bool lo n); [|by eexists].
  unfold dict_get_or in Hhi.
  destruct (query_params !! "max_followers") as [v|];
    cbn [default from_option id] in Hhi.
  - unfold py_le. rewrite Hn, Hhi. by eexists.
  - unfold py_le_inf. rewrite Hn. by eexists.
Qed.

Lemma filter_and_score_returns agent query_params raw_results :
  numeric_parameters query_params →
  Forall well_formed_profile raw_results →
  ∃ filtered, filter_and_score agent query_params raw_results = Ok filtered.
Proof.
  intros Hparams. induction 1 as [|profile rest Hprofile _ [filtered IH]]; [by eexists|].
  cbn [filter_and_score].
  destruct (passes_filters_returns query_params profile Hparams Hprofile) as [b ->].
  cbn [mbind Res_bind]. rewrite IH.
  destruct b; [|by eexists].
  destruct (augment_total agent profile Hprofile) as [record ->].
  cbn [mbind Res_bind]. by eexists.
Qed.

(** C9, amended.  Every record the search service returns satisfies each
    predicate the service applies for the parameters it was given.  Over a
    pool whose follower counts are non-negative numbers, dropping any one
    parameter keeps, in order, every candidate the loop had kept, whenever
    the loop returns without the parameter as it did with it: with fewer
    profiles skipped, a comparison or a scoring that was not reached before
    may raise, and then there are no candidates at all.  Over well-formed
    profiles and numeric bounds the loop returns with and without the
    parameter. *)
Theorem search_satisfies_applied_predicates
    (svc : InfluencerService) (query_params : gmap string PyVal) (w : World) :
  let agent := ranking_agent svc in
  let pool := public_pool (inf_db svc) in
  (∀ res w' record,
      search_and_filter_influencers svc query_params w = (Ok res, w') →
      record ∈ res →
      Forall (satisfies record) (applied_predicates query_params))
  ∧ (∀ k filtered filtered',
      Forall nonnegative_followers pool →
      filter_and_score agent query_params pool = Ok filtered →
      filter_and_score agent (delete k query_params) pool = Ok filtered' →
      filtered `sublist_of` filtered')
  ∧ (∀ k,
      Forall well_formed_profile pool →
      numeric_parameters query_params →
      ∃ filtered filtered',
        filter_and_score agent query_params pool = Ok filtered
        ∧ filter_and_score agent (delete k query_params) pool = Ok filtered'
        ∧ filtered `sublist_of` filtered').
Proof.
  intros agent pool.
  assert (∀ k filtered filtered',
            Forall nonnegative_followers pool →
            filter_and_score agent query_params pool = Ok filtered →
            filter_and_score agent (delete k query_params) pool = Ok filtered' →
            filtered `sublist_of` filtered') as Hdrop.
  { intros k filtered filtered' Hpool. apply filter_and_score_sublist.
    eapply Forall_impl; [exact Hpool|]. intros profile Hfollowers Hpass.
    by apply passes_filters_delete. }
  split; [|split; [exact Hdrop|]].
  - intros res w' record. rewrite search_and_filter_influencers_run.
    intros [= Hres _] Hrecord.
    destruct (search_listing_members _ _ _ _ _ Hres Hrecord)
      as (profile & _ & Hpass & Haug).
    eapply Forall_impl; [by apply passes_satisfies|].
    intros predicate Hsat. by apply (satisfies_augment _ _ _ _ Haug).
  - intros k Hpool Hparams.
    destruct (filter_and_score_returns agent query_params pool Hparams Hpool)
      as [filtered Hloop].
    destruct (filter_and_score_returns agent (delete k query_params) pool
                (numeric_parameters_delete _ k Hparams) Hpool) as [filtered' Hloop'].
    exists filtered, filtered'. split; [exact Hloop|]. split; [exact Hloop'|].
    apply (Hdrop k); [|exact Hloop|exact Hloop'].
    eapply Forall_impl; [exact Hpool|]. by intros profile [Hfollowers _].
Qed.

Lemma search_satisfies_applied_predicates_witness :
  let svc := fixture_search mock_agent two_profiles in
  let query_params : gmap string PyVal :=
    {[ "niche" := PStr "Fitness"; "min_engagement_rate" := PFloat 3 ]} in
  let pool := public_pool (inf_db svc) in
  (∃ res record,
      fst (search_and_filter_influencers svc query_params fresh_world) = Ok res
      ∧ res !! 0%nat = Some record
      ∧ dict_get record "username" = PStr "ann"
      ∧ Forall (satisfies record) (applied_predicates query_params))
  ∧ ∃ filtered filtered',
      filter_and_score mock_agent query_params pool = Ok filtered
      ∧ filter_and_score mock_agent (delete "min_engagement_rate" query_params) pool
        = Ok filtered'
      ∧ usernames filtered = [PStr "ann"]
      ∧ usernames filtered' = [PStr "ann"; PStr "bob"]
      ∧ filtered `sublist_of` filtered'.
Proof.
  intros svc query_params pool.
  destruct (search_satisfies_applied_predicates svc query_params fresh_world)
    as (Hservice & _ & Hdrop).
  pose (run := search_and_filter_influencers svc query_params fresh_world).
  pose (res := match fst run with Ok res => res | Raise _ => [] end).
  pose (record := default ∅ (res !! 0%nat)).
  split.
  - exists res, record. split; [by_evaluation|].
    split; [by_evaluation|]. split; [by_evaluation|].
    apply (Hservice res (snd run) record).
    + by_evaluation.
    + apply (list_elem_of_lookup_2 _ 0%nat). by_evaluation.
  - destruct (Hdrop "min_engagement_rate") as (filtered & filtered' & Hloop & Hloop' & Hsub).
    + fold pool.
      replace pool with [<["id" := PStr "a"]> ann; <["id" := PStr "b"]> bob]
        by by_evaluation.
      unfold ann, bob.
      repeat constructor; apply profile_of_well_formed; lia.
    + repeat split; by eexists.
    + fold pool in Hloop, Hloop'.
      change (ranking_agent svc) with mock_agent in Hloop, Hloop'.
      exists filtered, filtered'. split; [exact Hloop|]. split; [exact Hloop'|].
      split; [|split; [|exact Hsub]].
      * assert (usernames <$> filter_and_score mock_agent query_params pool
                = Ok [PStr "ann"]) as Hnames by by_evaluation.
        rewrite Hloop in Hnames. by injection Hnames.
      * assert (usernames <$> filter_and_score mock_agent
                                (delete "min_engagement_rate" query_params) pool
                = Ok [PStr "ann"; PStr "bob"]) as Hnames by by_evaluation.
        rewrite Hloop' in Hnames. by injection Hnames.
Defined.

(** C9, as stated, fails in three ways.  A niche given as the empty string
    is not applied: profiles of another niche are returned.  With a
    negative lower follower bound, a profile whose follower count is
    negative is a candidate, and is no longer one once the bound is removed
    (the default bound is 0).  And where the niche predicate had skipped a
    profile whose engagement rate is not a number, removing it lets the
    loop reach the comparison with the minimum engagement rate, which
    raises: the search has no candidates at all. *)
Lemma search_predicates_not_all_applied :
  (let svc := fixture_search mock_agent two_profiles in
   usernames
     <$> fst (search_and_filter_influencers svc
                (search_params None (Some "") 0 0 1 20) fresh_world)
   = Ok [PStr "ann"; PStr "bob"]
   ∧ py_eq (dict_get ann "niche_label") (PStr "") = false)
  ∧ (let debtor := profile_of "neg" "Fitness" 1 (-3) in
     let query_params : gmap string PyVal := {[ "min_followers" := PInt (-5) ]} in
     usernames <$> filter_and_score mock_agent query_params [debtor] = Ok [PStr "neg"]
     ∧ usernames <$> filter_and_score mock_agent (delete "min_followers" query_params)
                       [debtor]
       = Ok [])
  ∧ (let query_params : gmap string PyVal :=
       {[ "niche" := PStr "Fitness"; "min_engagement_rate" := PFloat 3 ]} in
     usernames <$> filter_and_score mock_agent query_params [ann; odd_profile]
     = Ok [PStr "ann"]
     ∧ filter_and_score mock_agent (delete "niche" query_params) [ann; odd_profile]
       = Raise TypeError).
Proof. by_evaluation. Qed.


(** ** The store: ids, paths and tenants *)

Lemma string_append_cons c s t : String c s +:+ t = String c (s +:+ t).
Proof. reflexivity. Qed.

Lemma string_append_nil_r s : s +:+ "" = s.
Proof.
  induction s as [|c s IH]; [reflexivity|]. by rewrite string_append_cons, IH.
Qed.

Lemma string_append_snoc acc c s : (acc +:+ String c "") +:+ s = acc +:+ String c s.
Proof.
  induction acc as [|a acc IH]; [reflexivity|]. by rewrite !string_append_cons, IH.
Qed.

Lemma string_length_append a b :
  String.length (a +:+ b) = (String.length a + String.length b)%nat.
Proof.
  induction a as [|c a IH]; [reflexivity|].
  rewrite string_append_cons. cbn [String.length]. by rewrite IH.
Qed.

Lemma string_append_inj_r s : ∀ a b, a +:+ s = b +:+ s → a = b.
Proof.
  induction a as [|c a IH]; intros [|d b] Heq; [reflexivity| | |].
  - apply (f_equal String.length) in Heq.
    rewrite !string_length_append in Heq. cbn [String.length] in Heq. lia.
  - apply (f_equal String.length) in Heq.
    rewrite !string_length_append in Heq. cbn [String.length] in Heq. lia.
  - rewrite !string_append_cons in Heq. injection Heq as -> Heq.
    f_equal. by apply IH.
Qed.

Lemma last_segment_aux_append prefix : ∀ acc rest,
  last_segment_aux acc (prefix +:+ "/" +:+ rest) = last_segment_aux "" rest.
Proof.
  induction prefix as [|c prefix IH]; intros acc rest; [reflexivity|].
  rewrite string_append_cons. cbn [last_segment_aux].
  destruct (Ascii.eqb c "/"); apply IH.
Qed.

Lemma last_segment_aux_slash_free s : ∀ acc,
  slash_free s = true → last_segment_aux acc s = acc +:+ s.
Proof.
  induction s as [|c s IH]; intros acc; cbn [slash_free last_segment_aux].
  - intros _. by rewrite string_append_nil_r.
  - intros [Hc Hs]%andb_true_iff. apply negb_true_iff in Hc. rewrite Hc.
    rewrite IH by done. apply string_append_snoc.
Qed.

(** X1.  Every record a listing returns stems from a snapshot that exists,
    carries that snapshot's id under ["id"] (whatever the stored data held
    there) and agrees with the stored data on every other key; snapshots
    that do not exist are left out. *)
Theorem get_collection_records_carry_id
    (fs : FirestoreService) (collection_name : string) (is_private : bool)
    (w w' : World) (records : list (gmap string PyVal)) :
  get_collection fs collection_name is_private w = (Ok records, w') →
  ∃ path,
    collection_path fs collection_name is_private = Ok path
    ∧ (length records <= length (collection_stream (db fs) path))%nat
    ∧ ∀ record, record ∈ records →
        ∃ doc,
          doc ∈ collection_stream (db fs) path
          ∧ snap_exists doc = true
          ∧ record !! "id" = Some (PStr (snap_id doc))
          ∧ ∀ k, k ≠ "id" → record !! k = snap_data doc !! k.
Proof.
  unfold get_collection, mbind, M_bind, lift, call_store, mret, M_ret.
  destruct (collection_path fs collection_name is_private) as [path|e]; [|discriminate].
  intros [= <- _]. exists path. split; [reflexivity|]. split.
  - generalize (collection_stream (db fs) path). intros docs.
    induction docs as [|doc docs IH]; [done|]. cbn [omap list_omap].
    destruct (snapshot_record doc); cbn [length]; fold (omap snapshot_record docs); lia.
  - intros record (doc & Hdoc & Hrecord)%list_elem_of_omap.
    unfold snapshot_record in Hrecord.
    destruct (snap_exists doc) eqn:Hexists; [|discriminate].
    injection Hrecord as <-. exists doc. repeat split; try done.
    + by simplify_map_eq.
    + intros k Hk. by simplify_map_eq.
Qed.

Lemma get_collection_records_carry_id_witness :
  let fs := fixture_store [("a", <["id" := PStr "stale"]> ann)] [] in
  ∃ path,
    collection_path fs "influencers" false = Ok path
    ∧ (length (public_pool fs) <= length (collection_stream (db fs) path))%nat
    ∧ ∀ record, record ∈ public_pool fs →
        ∃ doc,
          doc ∈ collection_stream (db fs) path
          ∧ snap_exists doc = true
          ∧ record !! "id" = Some (PStr (snap_id doc))
          ∧ ∀ k, k ≠ "id" → record !! k = snap_data doc !! k.
Proof.
  intros fs.
  apply (get_collection_records_carry_id fs "influencers" false fresh_world
           (snd (get_collection fs "influencers" false fresh_world))).
  reflexivity.
Defined.

(** X2.  The mock store finds every document it is asked for: the record
    carries the mock field, and its id is what follows the last slash of
    the requested id, which is the requested id itself when that id has no
    slash. *)
Theorem mock_get_document_echoes_id
    (fs : FirestoreService) (collection_name doc_id : string) (w : World) :
  db fs = MockFirestoreClient →
  ∃ record w',
    get_document fs collection_name doc_id false w = (Ok (Some record), w')
    ∧ record !! "id" = Some (PStr (last_segment doc_id))
    ∧ record !! "mock_field" = Some (PStr "test_data")
    ∧ (slash_free doc_id = true → record !! "id" = Some (PStr doc_id)).
Proof.
  intros Hmock. unfold get_document, mbind, M_bind, lift, call_store, mret, M_ret.
  cbn [collection_path]. rewrite Hmock. cbn [document_get MockFirestoreClient].
  cbn [MockDocumentSnapshot snap_exists snap_id snap_data].
  assert (last_segment (_get_public_collection_path fs collection_name +:+ "/" +:+ doc_id)
          = last_segment doc_id) as Hid by apply last_segment_aux_append.
  eexists _, _. split; [reflexivity|]. rewrite Hid.
  split; [by simplify_map_eq|]. split; [by simplify_map_eq|].
  intros Hfree. simplify_map_eq. do 2 f_equal.
  apply (last_segment_aux_slash_free doc_id "" Hfree).
Qed.

Lemma mock_get_document_echoes_id_witness :
  let fs := FirestoreService_init "app" None MockFirestoreClient in
  ∃ record w',
    get_document fs "influencers" "tiktok_ann" false fresh_world = (Ok (Some record), w')
    ∧ record !! "id" = Some (PStr (last_segment "tiktok_ann"))
    ∧ record !! "mock_field" = Some (PStr "test_data")
    ∧ (slash_free "tiktok_ann" = true → record !! "id" = Some (PStr "tiktok_ann")).
Proof.
  intros fs.
  exact (mock_get_document_echoes_id fs "influencers" "tiktok_ann" fresh_world eq_refl).
Defined.

(** X3.  One service never derives the same path for a private and for a
    public collection; and two services of one application that are bound
    to different tenants never derive the same private path for a
    collection. *)
Theorem private_paths_are_separate
    (fs fs' : FirestoreService) (collection_name other : string)
    (private_path private_path' : string) :
  _get_private_collection_path fs collection_name = Ok private_path →
  _get_private_collection_path fs' collection_name = Ok private_path' →
  app_id fs = app_id fs' →
  private_path ≠ _get_public_collection_path fs other
  ∧ (current_user_id fs ≠ current_user_id fs' → private_path ≠ private_path').
Proof.
  unfold _get_private_collection_path, _get_public_collection_path.
  destruct (current_user_id fs) as [uid|]; [|discriminate].
  destruct (String.eqb uid ""); [discriminate|].
  destruct (current_user_id fs') as [uid'|]; [|discriminate].
  destruct (String.eqb uid' ""); [discriminate|].
  intros [= <-] [= <-] Happ. split.
  - intros Heq. apply (inj (String.append "artifacts/")) in Heq.
    apply (inj (String.append (app_id fs))) in Heq. discriminate.
  - intros Hdiff Heq. rewrite <- Happ in Heq.
    apply (inj (String.append "artifacts/")) in Heq.
    apply (inj (String.append (app_id fs))) in Heq.
    apply (inj (String.append "/users/")) in Heq.
    apply string_append_inj_r in Heq. congruence.
Qed.

Lemma private_paths_are_separate_witness :
  let fs := FirestoreService_init "app" None MockFirestoreClient in
  let fs' := FirestoreService_init "app" (Some "token") MockFirestoreClient in
  "artifacts/app/users/fastapi-guest-app/user_alerts"
  ≠ _get_public_collection_path fs "user_alerts"
  ∧ (current_user_id fs ≠ current_user_id fs' →
     "artifacts/app/users/fastapi-guest-app/user_alerts"
     ≠ "artifacts/app/users/fastapi-user-app-authenticated/user_alerts").
Proof.
  intros fs fs'.
  exact (private_paths_are_separate fs fs' "user_alerts" "user_alerts" _ _
           eq_refl eq_refl eq_refl).
Defined.

(** X4.  A service as its constructor leaves it always has a tenant bound,
    whatever the token: the request identity is returned without a 401,
    and every private path is derived. *)
Theorem constructed_service_has_tenant
    (app : string) (token : option string) (client : FirestoreClient)
    (collection_name : string) :
  let fs := FirestoreService_init app token client in
  ¬ tenant_unbound fs
  ∧ (∃ user_id,
        current_user_id fs = Some user_id
        ∧ get_current_user_id fs = Ok user_id
        ∧ collection_path fs collection_name true
          = Ok ("artifacts/" +:+ app +:+ "/users/" +:+ user_id +:+ "/" +:+ collection_name))
  ∧ (current_user_id fs = Some ("fastapi-user-" +:+ app +:+ "-authenticated")
     ↔ ∃ t, token = Some t ∧ t ≠ "").
Proof.
  intros fs. subst fs. unfold tenant_unbound, get_current_user_id, collection_path,
    _get_private_collection_path, FirestoreService_init.
  cbn [current_user_id app_id].
  destruct token as [t|]; [destruct (String.eqb_spec t "") as [->|Ht]|]; cbn [negb].
  - split; [intros [|]; discriminate|]. split; [by eexists|].
    split; [discriminate | by intros (t & [= <-] & Ht)].
  - split; [intros [|]; discriminate|]. split; [by eexists|].
    split; [eauto | by intros (t' & [= <-] & _)].
  - split; [intros [|]; discriminate|]. split; [by eexists|].
    split; [discriminate | by intros (t & [=] & _)].
Qed.

(** ** The ranker: bounds, tiers and failures *)







Lemma float_of_int_literal_40 : float_of_int 40 = Ok (inject_Z 40).
Proof. vm_compute. reflexivity. Qed.

Lemma float_of_int_cases z :
  (Z.abs z < float_overflow_bound ∧ float_of_int z = Ok (inject_Z z))
  ∨ (float_overflow_bound <= Z.abs z ∧ float_of_int z = Raise OverflowError).
Proof.
  unfold float_of_int.
  destruct (Z.ltb_spec (Z.abs z) float_overflow_bound); [by left | by right].
Qed.

(** The mock rank score, by the kinds of its two operands. *)
Ltac mock_rank_score_cases features :=
  unfold _mock_rank_score;
  destruct (as_number (dict_get_or features "Follower_Growth_Rate" (PFloat (5 # 100))))
    as [[x|x]|];
  destruct (as_number (dict_get_or features "Average_Engagement_Rate" (PFloat 3)))
    as [[y|y]|];
  cbn [num_mul_literal num_add mbind Res_bind];
  try (destruct (float_of_int_cases (x * 500)) as [[Hrange ->]|[Hrange ->]]);
  try (destruct (float_of_int_cases (y * 10)) as [[Hrange ->]|[Hrange ->]]);
  cbn [num_add mbind Res_bind];
  rewrite ?float_of_int_literal_40;
  cbn [mbind Res_bind].

(** One case of "the expression raises [e] exactly when ...". *)
Ltac raise_case :=
  split;
  [ intros Hraise; try discriminate Hraise;
    first [ by left | by right
          | left; eexists _, _; by repeat split
          | right; eexists _, _; by repeat split ]
  | intros Hwhy;
    repeat match goal with
           | H : _ ∨ _ |- _ => destruct H
           | H : ∃ _, _ |- _ => destruct H
           | H : _ ∧ _ |- _ => destruct H
           end;
    simplify_eq; try reflexivity; try lia ].

Lemma mock_rank_score_type_error features :
  _mock_rank_score features = Raise TypeError
  ↔ as_number (dict_get_or features "Follower_Growth_Rate" (PFloat (5 # 100))) = None
    ∨ as_number (dict_get_or features "Average_Engagement_Rate" (PFloat 3)) = None.
Proof. mock_rank_score_cases features; raise_case. Qed.

Lemma mock_rank_score_overflow features :
  _mock_rank_score features = Raise OverflowError
  ↔ (∃ z q,
       as_number (dict_get_or features "Follower_Growth_Rate" (PFloat (5 # 100)))
       = Some (NInt z)
       ∧ as_number (dict_get_or features "Average_Engagement_Rate" (PFloat 3))
         = Some (NFloat q)
       ∧ float_overflow_bound <= Z.abs (z * 500))
    ∨ (∃ q z,
         as_number (dict_get_or features "Follower_Growth_Rate" (PFloat (5 # 100)))
         = Some (NFloat q)
         ∧ as_number (dict_get_or features "Average_Engagement_Rate" (PFloat 3))
           = Some (NInt z)
         ∧ float_overflow_bound <= Z.abs (z * 10)).
Proof. mock_rank_score_cases features; raise_case. Qed.

Lemma mock_rank_score_raises features e :
  _mock_rank_score features = Raise e → e = TypeError ∨ e = OverflowError.
Proof.
  mock_rank_score_cases features; intros Hraise; try discriminate Hraise;
    injection Hraise as <-; auto.
Qed.

(** [predict] raises what the mock rank score raises, when it is needed. *)
Lemma predict_raises_iff agent profile e :
  predict agent profile = Raise e
  ↔ match model agent with
    | Some m => m profile = None
    | None => True
    end
    ∧ _mock_rank_score profile = Raise e.
Proof.
  unfold predict.
  destruct (model agent) as [m|]; [destruct (m profile) as [s|]|];
    cbn [mbind Res_bind];
    try (destruct (_mock_rank_score profile) as [s|e']; cbn [mbind Res_bind]);
    repeat match goal with |- context [if ?b then _ else _] => destruct b end;
    cbv beta iota zeta;
    (split;
     [ intros Hraise; try discriminate Hraise; injection Hraise as <-; by split
     | intros [Hneeded Hmock]; try discriminate Hneeded; try discriminate Hmock;
       by injection Hmock as <- ]).
Qed.

Lemma predict_raises agent profile e :
  predict agent profile = Raise e → e = TypeError ∨ e = OverflowError.
Proof. intros [_ Hmock]%predict_raises_iff. by eapply mock_rank_score_raises. Qed.



(** X6.  [predict] raises exactly when the mock rank score is needed (no
    model is loaded, or the model raises on the profile) and the mock rank
    score raises: a [TypeError] when one of the two features the mock
    ranker reads is present without being a number, an [OverflowError] when
    one of the two weighted features is an [int] beyond the range of the
    floats and the other one a [float].  It raises nothing else. *)
Theorem predict_raises_only_on_unscorable_features
    (agent : RecommendationAgent) (profile : gmap string PyVal) :
  let needs_mock :=
    match model agent with
    | Some m => m profile = None
    | None => True
    end in
  let growth :=
    as_number (dict_get_or profile "Follower_Growth_Rate" (PFloat (5 # 100))) in
  let engagement :=
    as_number (dict_get_or profile "Average_Engagement_Rate" (PFloat 3)) in
  (predict agent profile = Raise TypeError
   ↔ needs_mock ∧ (growth = None ∨ engagement = None))
  ∧ (predict agent profile = Raise OverflowError
     ↔ needs_mock
       ∧ ((∃ z q, growth = Some (NInt z) ∧ engagement = Some (NFloat q)
                  ∧ float_overflow_bound <= Z.abs (z * 500))
          ∨ (∃ q z, growth = Some (NFloat q) ∧ engagement = Some (NInt z)
                    ∧ float_overflow_bound <= Z.abs (z * 10))))
  ∧ ∀ e, predict agent profile = Raise e → e = TypeError ∨ e = OverflowError.
Proof.
  cbv zeta. split; [|split].
  - by rewrite predict_raises_iff, mock_rank_score_type_error.
  - by rewrite predict_raises_iff, mock_rank_score_overflow.
  - apply predict_raises.
Qed.

Lemma predict_raises_only_on_unscorable_features_witness :
  predict mock_agent unscorable = Raise TypeError
  ∧ predict mock_agent overflowing = Raise OverflowError
  ∧ ∃ prediction,
      predict failing_agent (<["Follower_Growth_Rate" := PStr "n/a"]> ann) = Ok prediction
      ∧ Qeq_bool (Market_Value_Score prediction) 50 = true.
Proof.
  split; [|split].
  - apply (proj1 (predict_raises_only_on_unscorable_features mock_agent unscorable)).
    split; [exact I | by left].
  - apply (proj1 (proj2 (predict_raises_only_on_unscorable_features mock_agent overflowing))).
    split; [exact I|]. left. exists (10 ^ 400), 3%Q.
    split; [reflexivity|]. split; [reflexivity|]. vm_compute. discriminate.
  - pose (prediction :=
            match predict failing_agent (<["Follower_Growth_Rate" := PStr "n/a"]> ann) with
            | Ok prediction => prediction
            | Raise _ => {| Market_Value_Score := 0; Market_Tier := "";
                            Estimated_Post_Fee_USD := 0 |}
            end).
    exists prediction. by_evaluation.
Defined.

Lemma mock_prediction agent profile :
  model agent = None →
  profile !! "Follower_Growth_Rate" = None →
  profile !! "Average_Engagement_Rate" = None →
  ∃ prediction,
    predict agent profile = Ok prediction
    ∧ (Market_Value_Score prediction == 95)%Q
    ∧ Market_Tier prediction = "A-List Talent".
Proof.
  intros Hmodel Hgrowth Hengagement.
  assert (_mock_rank_score profile
          = Ok ((5 # 100) * inject_Z 500 + 3 * inject_Z 10 + inject_Z 40)%Q) as Hmock.
  { unfold _mock_rank_score, dict_get_or. rewrite Hgrowth, Hengagement.
    cbn [default from_option id as_number num_mul_literal num_add mbind Res_bind].
    rewrite float_of_int_literal_40. reflexivity. }
  unfold predict. rewrite Hmodel, Hmock. cbn [mbind Res_bind].
  eexists. split; [reflexivity|]. split; [|reflexivity].
  vm_compute. reflexivity.
Qed.

(** X7.  In mock mode every profile that lacks the two features the mock
    ranker reads gets the score 95 and the tier A-List, whatever else it
    holds: its follower count and its (lower-case) engagement rate play no
    part. *)
Theorem mock_mode_scores_alike (agent : RecommendationAgent) (profile : gmap string PyVal) :
  model agent = None →
  profile !! "Follower_Growth_Rate" = None →
  profile !! "Average_Engagement_Rate" = None →
  ∃ prediction,
    predict agent profile = Ok prediction
    ∧ (Market_Value_Score prediction == 95)%Q
    ∧ Market_Tier prediction = "A-List Talent".
Proof. apply mock_prediction. Qed.

Lemma mock_mode_scores_alike_witness :
  ∃ prediction,
    predict mock_agent ann = Ok prediction
    ∧ (Market_Value_Score prediction == 95)%Q
    ∧ Market_Tier prediction = "A-List Talent".
Proof. apply mock_mode_scores_alike; reflexivity. Defined.

Lemma sorted_reverse_equal_keys {A} (key : A → Q) (l : list A) (s : Q) :
  Forall (fun x => (key x == s)%Q) l → sorted_reverse key l = l.
Proof.
  induction 1 as [|x l Hx Hl IH]; [reflexivity|].
  cbn [sorted_reverse]. rewrite IH.
  destruct Hl as [|y l Hy _]; [reflexivity|]. cbn [insert_reverse].
  assert (Qle_bool (key y) (key x) = true) as ->
    by (apply Qle_bool_iff; rewrite Hx, Hy; apply Qle_refl).
  reflexivity.
Qed.

(** X8.  In mock mode, over a pool none of whose profiles holds the two
    features the mock ranker reads, ranking changes nothing: the sorted
    list is the list of the surviving profiles in store-listing order. *)
Theorem mock_mode_keeps_listing_order
    (svc : InfluencerService) (query_params : gmap string PyVal)
    (raw_results sorted_results : list (gmap string PyVal)) :
  model (ranking_agent svc) = None →
  Forall (fun profile => profile !! "Follower_Growth_Rate" = None
                         ∧ profile !! "Average_Engagement_Rate" = None) raw_results →
  ranked_listing svc query_params raw_results = Ok sorted_results →
  scored_from (ranking_agent svc) (survivors query_params raw_results) sorted_results.
Proof.
  intros Hmodel Hraw Hranked.
  apply ranked_listing_ranked in Hranked as (filtered & Hloop & ->).
  pose proof (filter_and_score_survivors _ _ _ _ Hloop) as Hscored.
  rewrite (sorted_reverse_equal_keys _ _ 95); [exact Hscored|].
  assert (Forall (fun profile => profile !! "Follower_Growth_Rate" = None
                                 ∧ profile !! "Average_Engagement_Rate" = None)
                 (survivors query_params raw_results)) as Hkept.
  { unfold survivors. rewrite Forall_forall in *. intros profile Hin.
    apply Hraw. apply list_elem_of_In, filter_In in Hin as [Hin _].
    by apply list_elem_of_In. }
  clear Hloop Hraw. unfold scored_from in Hscored.
  induction Hscored as [|profile record ? ? Haug _ IH]; [constructor|].
  apply Forall_cons in Hkept as [[Hg He] Hkept].
  constructor; [|by apply IH].
  destruct (augment_score _ _ _ Haug) as (prediction & Hp & _ & ->).
  destruct (mock_prediction _ profile Hmodel Hg He) as (prediction' & Hp' & Hs & _).
  congruence.
Qed.

Lemma mock_mode_keeps_listing_order_witness :
  let svc := fixture_search mock_agent [("b", bob); ("a", ann)] in
  ∃ sorted_results,
    ranked_listing svc ∅ (public_pool (inf_db svc)) = Ok sorted_results
    ∧ usernames sorted_results = [PStr "bob"; PStr "ann"]
    ∧ scored_from mock_agent (survivors ∅ (public_pool (inf_db svc))) sorted_results.
Proof.
  intros svc.
  pose (sorted_results := match ranked_listing svc ∅ (public_pool (inf_db svc)) with
                          | Ok l => l
                          | Raise _ => []
                          end).
  assert (ranked_listing svc ∅ (public_pool (inf_db svc)) = Ok sorted_results) as Hr
    by by_evaluation.
  exists sorted_results. split; [exact Hr|]. split; [by_evaluation|].
  apply (mock_mode_keeps_listing_order svc ∅ _ _ eq_refl); [|exact Hr].
  replace (public_pool (inf_db svc))
    with [<["id" := PStr "b"]> bob; <["id" := PStr "a"]> ann] by by_evaluation.
  repeat constructor.
Defined.


(** ** Search: what it returns and how it fails *)

Lemma py_lt_raises_type_error a b e : py_lt a b = Raise e → e = TypeError.
Proof.
  unfold py_lt. destruct (as_num a), (as_num b), a, b;
    intros Hraise; try discriminate; by injection Hraise as <-.
Qed.

Lemma py_le_raises_type_error a b e : py_le a b = Raise e → e = TypeError.
Proof.
  unfold py_le. destruct (as_num a), (as_num b), a, b;
    intros Hraise; try discriminate; by injection Hraise as <-.
Qed.

Lemma py_le_inf_raises_type_error a e : py_le_inf a = Raise e → e = TypeError.
Proof.
  unfold py_le_inf. destruct (as_num a);
    intros Hraise; try discriminate; by injection Hraise as <-.
Qed.

Lemma passes_filters_raises_type_error query_params profile e :
  passes_filters query_params profile = Raise e → e = TypeError.
Proof.
  unfold passes_filters.
  destruct (truthy (dict_get query_params "niche") && _); [discriminate|].
  destruct (if truthy (dict_get query_params "min_engagement_rate")
            then py_lt (dict_get_or profile "average_engagement_rate" (PInt 0))
                       (dict_get query_params "min_engagement_rate")
            else Ok false) as [[|]|e'] eqn:Hrate; cbn [mbind Res_bind];
    [discriminate| |].
  - destruct (py_le (dict_get_or query_params "min_followers" (PInt 0)) _)
      as [[|]|e'] eqn:Hlower; cbn [mbind Res_bind]; [|discriminate|].
    + destruct (query_params !! "max_followers"); intros Hupper;
        [by apply py_le_raises_type_error in Hupper
        |by apply py_le_inf_raises_type_error in Hupper].
    + intros [= <-]. by apply py_le_raises_type_error in Hlower.
  - intros [= <-].
    destruct (truthy (dict_get query_params "min_engagement_rate")); [|discriminate].
    by apply py_lt_raises_type_error in Hrate.
Qed.

Lemma filter_and_score_raises agent query_params raw_results e :
  filter_and_score agent query_params raw_results = Raise e →
  e = TypeError ∨ e = OverflowError.
Proof.
  induction raw_results as [|profile rest IH]; [discriminate|].
  cbn [filter_and_score]. unfold mbind, Res_bind.
  destruct (passes_filters query_params profile) as [[|]|e'] eqn:Hpass.
  - unfold augment, mbind, Res_bind.
    destruct (predict agent profile) as [prediction|e'] eqn:Hpredict.
    + destruct (filter_and_score agent query_params rest); [discriminate|].
      intros [= <-]. by apply IH.
    + intros [= <-]. by eapply predict_raises.
  - exact IH.
  - intros [= <-]. left. by apply passes_filters_raises_type_error in Hpass.
Qed.

Lemma search_listing_raises svc query_params raw_results e :
  search_listing svc query_params raw_results = Raise e →
  e = TypeError ∨ e = OverflowError.
Proof.
  unfold search_listing, ranked_listing, mbind, Res_bind.
  destruct (filter_and_score _ _ _) as [filtered|e'] eqn:Hloop.
  - destruct (dict_get_or query_params "limit" _); cbn [take_limit];
      intros Hraise; try discriminate; left; by injection Hraise as <-.
  - intros [= <-]. by eapply filter_and_score_raises.
Qed.



(** X10.  With an integer limit [n], the service returns the first [n]
    records of the ranking when [n] is not negative, so as many records as
    survive the filters or [n] if that is fewer; a negative limit does not
    fail: it leaves out the last [-n] records of the ranking. *)
Theorem search_result_length
    (svc : InfluencerService) (query_params : gmap string PyVal) (w w' : World)
    (res : list (gmap string PyVal)) (n : Z) :
  search_and_filter_influencers svc query_params w = (Ok res, w') →
  dict_get_or query_params "limit" (PInt (DEFAULT_SEARCH_LIMIT (inf_settings svc)))
  = PInt n →
  let candidates := length (survivors query_params (public_pool (inf_db svc))) in
  (0 <= n → length res = Nat.min (Z.to_nat n) candidates)
  ∧ (n < 0 → length res = (candidates - Z.to_nat (- n))%nat).
Proof.
  rewrite search_and_filter_influencers_run. intros [= Hres _] Hlimit candidates.
  unfold search_listing, mbind, Res_bind in Hres.
  destruct (ranked_listing _ _ _) as [sorted_results|e] eqn:Hranked; [|discriminate].
  apply ranked_listing_ranked in Hranked as (filtered & Hloop & ->).
  apply filter_and_score_survivors, Forall2_length in Hloop.
  rewrite Hlimit in Hres. injection Hres as <-.
  unfold py_slice_to, slice_index. rewrite length_take, sorted_reverse_length.
  subst candidates. rewrite Hloop.
  split; intros Hn; destruct (Z.ltb_spec n 0); lia.
Qed.

Lemma search_result_length_witness :
  let svc := fixture_search mock_agent two_profiles in
  let query_params : gmap string PyVal := {[ "limit" := PInt (-1) ]} in
  ∃ res,
    fst (search_and_filter_influencers svc query_params fresh_world) = Ok res
    ∧ usernames res = [PStr "ann"]
    ∧ length res
      = (length (survivors query_params (public_pool (inf_db svc))) - Z.to_nat (- -1))%nat.
Proof.
  intros svc query_params.
  pose (run := search_and_filter_influencers svc query_params fresh_world).
  pose (res := match fst run with Ok res => res | Raise _ => [] end).
  exists res. split; [by_evaluation|]. split; [by_evaluation|].
  refine (proj2 (search_result_length svc query_params fresh_world (snd run) res (-1)
                   _ _) _); [by_evaluation | by_evaluation | lia].
Defined.


(** X12.  Whatever fails inside the handler's [try] block, the endpoint
    answers with status 500 and a detail that names the class of the
    exception: [TypeError] or [OverflowError] when the service raises,
    [ValidationError] when the service returns and a record of the page
    does not validate as an [InfluencerProfile].  Nothing else makes the
    endpoint fail. *)
Theorem search_endpoint_fails_with_500
    (accepts : Validator) (svc : InfluencerService) (q niche : option string)
    (min_engagement : Q) (min_followers page limit : Z) (w : World) (e : PyErr) :
  fst (search_influencers accepts svc q niche min_engagement min_followers page limit w)
  = Raise e →
  let service :=
    fst (search_and_filter_influencers svc
           (search_params q niche min_engagement min_followers page limit) w) in
  (e = HTTPException 500 "Search operation failed: TypeError"
   ∧ service = Raise TypeError)
  ∨ (e = HTTPException 500 "Search operation failed: OverflowError"
     ∧ service = Raise OverflowError)
  ∨ (e = HTTPException 500 "Search operation failed: ValidationError"
     ∧ ∃ all_results record,
         service = Ok all_results
         ∧ record ∈ py_slice all_results ((page - 1) * limit) ((page - 1) * limit + limit)
         ∧ validates accepts InfluencerProfile record = false).
Proof.
  rewrite search_influencers_run, search_and_filter_influencers_run. cbn [fst].
  destruct (search_listing _ _ _) as [all_results|e'] eqn:Hres.
  - destruct (SearchResult_init _ _ _ _ _) as [response|e'] eqn:Hinit; [discriminate|].
    apply SearchResult_init_raises in Hinit as (-> & record & Hin & Hrecord).
    intros [= <-]. right. right. split; [reflexivity|]. by exists all_results, record.
  - apply search_listing_raises in Hres as [-> | ->]; intros [= <-];
      [left | right; left]; by split.
Qed.

Lemma search_endpoint_fails_with_500_witness :
  let svc := fixture_search mock_agent two_profiles in
  let service :=
    fst (search_and_filter_influencers svc (search_params None None 0 0 1 20)
           fresh_world) in
  fst (search_influencers exact_types svc None None 0 0 1 20 fresh_world)
  = Raise (HTTPException 500 "Search operation failed: ValidationError")
  ∧ ∃ all_results record,
      service = Ok all_results
      ∧ record ∈ py_slice all_results ((1 - 1) * 20) ((1 - 1) * 20 + 20)
      ∧ validates exact_types InfluencerProfile record = false.
Proof.
  intros svc service.
  assert (fst (search_influencers exact_types svc None None 0 0 1 20 fresh_world)
          = Raise (HTTPException 500 "Search operation failed: ValidationError")) as Hrun
    by by_evaluation.
  split; [exact Hrun|].
  destruct (search_endpoint_fails_with_500 exact_types svc None None 0 0 1 20
              fresh_world _ Hrun) as [[Hdetail _] | [[Hdetail _] | [_ Hrecord]]];
    [discriminate Hdetail | discriminate Hdetail | exact Hrecord].
Defined.

Lemma page_length_witness :
  let svc := fixture_search mock_agent two_complete_profiles in
  let run := search_influencers exact_types svc None None 0 0 1 1 fresh_world in
  ∃ response,
    fst run = Ok response
    ∧ usernames (results response) = [PStr "ann"]
    ∧ Z.of_nat (length (results response)) <= 1.
Proof.
  intros svc run.
  pose (response := match fst run with
                    | Ok response => response
                    | Raise _ => {| count := 0; page_size := 0; page := 0; results := [] |}
                    end).
  exists response. split; [by_evaluation|]. split; [by_evaluation|].
  apply (page_length exact_types svc None None 0 0 1 1 fresh_world response (snd run));
    [lia | lia | by_evaluation].
Defined.

Lemma later_pages_empty_witness :
  let svc := fixture_search mock_agent two_profiles in
  let run := search_influencers exact_types svc None None 0 0 3 1 fresh_world in
  ∃ response, fst run = Ok response ∧ results response = [].
Proof.
  intros svc run.
  pose (response := match fst run with
                    | Ok response => response
                    | Raise _ => {| count := 0; page_size := 0; page := 0; results := [] |}
                    end).
  exists response. split; [by_evaluation|].
  apply (later_pages_empty exact_types svc None None 0 0 3 1 fresh_world response (snd run));
    [lia | lia | by_evaluation].
Defined.

(** ** The alert rule store *)

(** X13.  Creating an alert with an empty user id fails with the service's
    own [ValueError] before the store is touched.  With a user id, the
    document handed to the store is the caller's data with [user_id] and
    [created_at] set (over whatever the caller put there), and it is added
    under the private path of the service's own tenant, which does not
    depend on the user id; without a bound tenant the authentication error
    comes back and nothing is stored. *)
Theorem create_alert_stamps_and_scopes
    (svc : AlertService) (user_id : string) (alert_data : gmap string PyVal)
    (now : Q) (w : World) :
  create_alert svc "" alert_data now w
  = (CreateValueError "User ID must be provided to create a private alert.", w)
  ∧ (user_id ≠ "" →
     let stamped := <["created_at" := PFloat now]>
                      (<["user_id" := PStr user_id]> alert_data) in
     (tenant_unbound (alert_db svc) →
      create_alert svc user_id alert_data now w = (CreateRaised auth_required, w))
     ∧ (∀ path,
          _get_private_collection_path (alert_db svc) ALERT_COLLECTION = Ok path →
          create_alert svc user_id alert_data now w
          = (Created (collection_add (db (alert_db svc)) path stamped),
             called w (CollectionAdd path stamped))
          ∧ stamped !! "user_id" = Some (PStr user_id)
          ∧ stamped !! "created_at" = Some (PFloat now)
          ∧ ∀ k, k ≠ "user_id" → k ≠ "created_at" → stamped !! k = alert_data !! k)).
Proof.
  split; [reflexivity|]. intros Huser stamped.
  unfold create_alert. destruct (String.eqb_spec user_id "") as [|_]; [done|].
  fold stamped. unfold add_document, mbind, M_bind, lift, call_store, mret, M_ret.
  split.
  - intros Hunbound. by rewrite (private_path_unbound _ _ Hunbound).
  - intros path Hpath. cbn [collection_path]. rewrite Hpath.
    split; [reflexivity|]. subst stamped.
    split; [by simplify_map_eq|]. split; [by simplify_map_eq|].
    intros k ? ?. by simplify_map_eq.
Qed.

Lemma create_alert_stamps_and_scopes_witness :
  let svc := fixture_alerts [] [] in
  let data : gmap string PyVal := {[ "user_id" := PStr "mallory"; "value" := PFloat 3 ]} in
  let stamped := <["created_at" := PFloat 1000]> (<["user_id" := PStr "u1"]> data) in
  create_alert svc "u1" data 1000 fresh_world
  = (Created "doc-3",
     called fresh_world
       (CollectionAdd "artifacts/app/users/fastapi-guest-app/user_alerts" stamped))
  ∧ stamped !! "user_id" = Some (PStr "u1").
Proof.
  intros svc data stamped.
  destruct (create_alert_stamps_and_scopes svc "u1" data 1000 fresh_world)
    as [_ Hcreate].
  destruct (Hcreate ltac:(discriminate)) as [_ Hbound].
  destruct (Hbound "artifacts/app/users/fastapi-guest-app/user_alerts" eq_refl)
    as (Hrun & Huser & _).
  split; [|exact Huser]. rewrite Hrun. by_evaluation.
Defined.

(** X14.  Listing the alerts of a user never raises: without a bound
    tenant the answer is the empty list and the store is not touched, and
    otherwise it is the private listing of the service's own tenant.
    Updating is one merge-write, deleting one delete, at the private path
    of the service's tenant; without a bound tenant both raise the
    authentication error.  None of the three depends on the user id it is
    given. *)
Theorem alert_store_is_scoped_to_the_service_tenant
    (svc : AlertService) (user_id other_user : string) (alert_id : string)
    (update_data : gmap string PyVal) (w : World) :
  (get_alerts_by_user svc user_id w = get_alerts_by_user svc other_user w
   ∧ update_alert svc alert_id update_data user_id w
     = update_alert svc alert_id update_data other_user w
   ∧ delete_alert svc alert_id user_id w = delete_alert svc alert_id other_user w)
  ∧ (tenant_unbound (alert_db svc) →
     get_alerts_by_user svc user_id w = (Ok [], w)
     ∧ update_alert svc alert_id update_data user_id w = (Raise auth_required, w)
     ∧ delete_alert svc alert_id user_id w = (Raise auth_required, w))
  ∧ (∀ path,
       _get_private_collection_path (alert_db svc) ALERT_COLLECTION = Ok path →
       get_alerts_by_user svc user_id w
       = (Ok (listed (alert_db svc) path), called w (CollectionStream path))
       ∧ update_alert svc alert_id update_data user_id w
         = (Ok tt, called w (DocumentSet (path +:+ "/" +:+ alert_id) update_data true))
       ∧ delete_alert svc alert_id user_id w
         = (Ok tt, called w (DocumentDelete (path +:+ "/" +:+ alert_id)))).
Proof.
  split; [by repeat split|].
  unfold get_alerts_by_user, update_alert, delete_alert, get_collection, set_document,
    delete_document, mbind, M_bind, lift, call_store, mret, M_ret.
  cbn [collection_path]. split.
  - intros Hunbound.
    assert (_get_private_collection_path (alert_db svc) ALERT_COLLECTION
            = Raise auth_required) as ->
      by apply (private_path_unbound _ _ Hunbound).
    by repeat split.
  - intros path ->. by repeat split.
Qed.

Lemma alert_store_is_scoped_to_the_service_tenant_witness :
  let svc := {| alert_db := {| app_id := "app"; current_user_id := None;
                               db := MockFirestoreClient |};
                alert_settings := default_settings;
                influencer_service := fixture_search mock_agent [] |} in
  get_alerts_by_user svc "u1" fresh_world = (Ok [], fresh_world)
  ∧ update_alert svc "a1" ∅ "u1" fresh_world = (Raise auth_required, fresh_world)
  ∧ delete_alert svc "a1" "u1" fresh_world = (Raise auth_required, fresh_world).
Proof.
  intros svc.
  exact (proj1 (proj2 (alert_store_is_scoped_to_the_service_tenant svc "u1" "u2" "a1" ∅
                         fresh_world)) (or_introl eq_refl)).
Defined.

(** ** The evaluation loop: what it emits and how it fails *)

Lemma condition_matches_raises_type_error condition_type target_value profile e :
  condition_matches condition_type target_value profile = Raise e → e = TypeError.
Proof.
  unfold condition_matches, py_ge.
  destruct (if py_eq condition_type (PStr "min_engagement_rate")
            then py_le target_value
                   (dict_get_or profile "average_engagement_rate" (PInt 0))
            else Ok false) as [[|]|e'] eqn:Hengagement; cbn [mbind Res_bind].
  - discriminate.
  - destruct (py_eq condition_type (PStr "min_market_score")); [|discriminate].
    apply py_le_raises_type_error.
  - intros [= <-].
    destruct (py_eq condition_type (PStr "min_engagement_rate")); [|discriminate].
    by apply py_le_raises_type_error in Hengagement.
Qed.

Section Scan.
Context (alert : gmap string PyVal) (condition_type target_value target_niche : PyVal).

Lemma scan_profiles_raises_type_error items e :
  scan_profiles alert condition_type target_value target_niche items = Raise e →
  e = TypeError.
Proof.
  induction items as [|[influencer_id profile] items IH]; [discriminate|].
  cbn [scan_profiles].
  destruct (truthy target_niche && _); [exact IH|].
  destruct (condition_matches condition_type target_value profile) as [[|]|e'] eqn:Hc;
    cbn [mbind Res_bind]; [discriminate | exact IH |].
  intros [= <-]. by apply condition_matches_raises_type_error in Hc.
Qed.

(** An alert the scan returns names the rule and one entry of the map. *)
Lemma scan_profiles_emits items triggered :
  scan_profiles alert condition_type target_value target_niche items = Ok (Some triggered) →
  alert_id triggered = dict_get alert "id"
  ∧ ∃ influencer_id profile,
      (influencer_id, profile) ∈ items
      ∧ profile_link triggered = influencer_id
      ∧ triggered_on triggered = dict_get profile "username".
Proof.
  induction items as [|[influencer_id profile] items IH]; [discriminate|].
  cbn [scan_profiles].
  assert (scan_profiles alert condition_type target_value target_niche items
          = Ok (Some triggered) →
          alert_id triggered = dict_get alert "id"
          ∧ ∃ influencer_id0 profile0,
              (influencer_id0, profile0) ∈ (influencer_id, profile) :: items
              ∧ profile_link triggered = influencer_id0
              ∧ triggered_on triggered = dict_get profile0 "username") as Hrest.
  { intros (Hid & i & p & Hin & Hlink & Hon)%IH. split; [exact Hid|].
    exists i, p. split; [by apply list_elem_of_further | done]. }
  destruct (truthy target_niche && _); [exact Hrest|].
  destruct (condition_matches condition_type target_value profile) as [[|]|e'];
    cbn [mbind Res_bind]; [|exact Hrest|discriminate].
  intros [= <-]. split; [reflexivity|].
  exists influencer_id, profile. split; [apply list_elem_of_here | done].
Qed.

(** Where neither branch of the condition applies, nothing is compared and
    nothing triggers. *)
Lemma scan_profiles_unknown_condition items :
  py_eq condition_type (PStr "min_engagement_rate") = false →
  py_eq condition_type (PStr "min_market_score") = false →
  scan_profiles alert condition_type target_value target_niche items = Ok None.
Proof.
  intros Hengagement Hscore.
  induction items as [|[influencer_id profile] items IH]; [reflexivity|].
  cbn [scan_profiles]. unfold condition_matches.
  rewrite Hengagement, Hscore. cbn [mbind Res_bind].
  by destruct (truthy target_niche && _).
Qed.
End Scan.

Lemma evaluate_alert_raises_type_error influencer_map alert e :
  evaluate_alert influencer_map alert = Raise e → e = TypeError.
Proof.
  unfold evaluate_alert. destruct (negb _ || negb _); [discriminate|].
  apply scan_profiles_raises_type_error.
Qed.

Lemma evaluate_alerts_raises_type_error influencer_map all_alerts e :
  evaluate_alerts influencer_map all_alerts = Raise e → e = TypeError.
Proof.
  induction all_alerts as [|alert rest IH]; [discriminate|].
  cbn [evaluate_alerts]. unfold mbind, Res_bind.
  destruct (evaluate_alert influencer_map alert) as [o|e'] eqn:Halert.
  - destruct (evaluate_alerts influencer_map rest); [discriminate|].
    intros [= <-]. by apply IH.
  - intros [= <-]. by apply evaluate_alert_raises_type_error in Halert.
Qed.

(** X15.  The loop over the rules emits at most one alert per rule, in the
    order of the rules: the rule ids of the alerts are a subsequence of the
    ids of the rules, and every alert points at an entry of the influencer
    map.  So a cycle returns no more alerts than the private listing holds
    rules. *)
Theorem at_most_one_alert_per_rule
    (svc : AlertService) (t : Q) (w : World)
    (influencer_map : list (PyVal * gmap string PyVal))
    (all_alerts : list (gmap string PyVal)) (triggered_alerts : list TriggeredAlert) :
  (evaluate_alerts influencer_map all_alerts = Ok triggered_alerts →
   (alert_id <$> triggered_alerts)
   `sublist_of` ((fun alert => dict_get alert "id") <$> all_alerts)
   ∧ Forall (fun triggered =>
               ∃ influencer_id profile,
                 (influencer_id, profile) ∈ influencer_map
                 ∧ profile_link triggered = influencer_id
                 ∧ triggered_on triggered = dict_get profile "username")
            triggered_alerts)
  ∧ (fst (evaluate_all_alerts svc t w) = Ok triggered_alerts →
     ∀ path, collection_path (alert_db svc) ALERT_COLLECTION true = Ok path →
       (length triggered_alerts <= length (listed (alert_db svc) path))%nat).
Proof.
  assert (∀ imap rules out,
            evaluate_alerts imap rules = Ok out →
            (alert_id <$> out) `sublist_of` ((fun alert => dict_get alert "id") <$> rules)
            ∧ Forall (fun triggered =>
                        ∃ influencer_id profile,
                          (influencer_id, profile) ∈ imap
                          ∧ profile_link triggered = influencer_id
                          ∧ triggered_on triggered = dict_get profile "username") out)
    as Hloop.
  { intros imap rules. induction rules as [|alert rest IH]; intros out.
    - intros [= <-]. split; constructor.
    - cbn [evaluate_alerts]. unfold mbind, Res_bind.
      destruct (evaluate_alert imap alert) as [emitted|e] eqn:Halert; [|discriminate].
      destruct (evaluate_alerts imap rest) as [later|e]; [|discriminate].
      intros [= <-]. destruct (IH later eq_refl) as [Hids Hentries].
      destruct emitted as [triggered|];
        [change (option_list (Some triggered) ++ later) with (triggered :: later)
        |change (option_list None ++ later) with later];
        rewrite !fmap_cons.
      + unfold evaluate_alert in Halert.
        destruct (negb _ || negb _); [discriminate|].
        apply scan_profiles_emits in Halert as [Hid Hentry]. rewrite Hid.
        split; [by apply sublist_skip | by constructor].
      + split; [by apply sublist_cons | exact Hentries]. }
  split; [apply Hloop|].
  intros Hcycle path Hpath.
  destruct (Qlt_le_dec (t - last_check_time w)
              (inject_Z (ALERT_CHECK_INTERVAL_SECONDS (alert_settings svc)))) as [Hsoon|Hdue].
  - rewrite (evaluate_too_soon svc t w Hsoon) in Hcycle. injection Hcycle as <-.
    cbn [length]. lia.
  - rewrite (evaluate_due svc t w Hdue), Hpath in Hcycle.
    destruct (search_listing _ _ _) as [market_data|e]; [|discriminate].
    destruct (build_influencer_map market_data) as [imap|e]; [|discriminate].
    cbn [fst] in Hcycle. apply Hloop in Hcycle as [Hids _].
    apply sublist_length in Hids. by rewrite !length_fmap in Hids.
Qed.

Lemma at_most_one_alert_per_rule_witness :
  let rules := [("r1", rule_of "min_engagement_rate" (PFloat 1) PNone);
                ("r2", rule_of "min_engagement_rate" (PFloat 9) PNone)] in
  let svc := fixture_alerts two_profiles rules in
  let run := evaluate_all_alerts svc 1000 fresh_world in
  ∃ triggered_alerts,
    fst run = Ok triggered_alerts
    ∧ alert_id <$> triggered_alerts = [PStr "r1"]
    ∧ (length triggered_alerts
       <= length (listed (alert_db svc)
                    "artifacts/app/users/fastapi-guest-app/user_alerts"))%nat.
Proof.
  intros rules svc run.
  pose (triggered_alerts := match fst run with Ok out => out | Raise _ => [] end).
  exists triggered_alerts. split; [by_evaluation|]. split; [by_evaluation|].
  apply (proj2 (at_most_one_alert_per_rule svc 1000 fresh_world [] []
                  triggered_alerts)); by_evaluation.
Defined.

(** X16.  A rule whose condition type is neither [min_engagement_rate] nor
    [min_market_score] never triggers and never raises, whatever its
    threshold and whatever the profiles hold: no comparison is made. *)
Theorem unknown_condition_never_triggers
    (influencer_map : list (PyVal * gmap string PyVal)) (alert : gmap string PyVal) :
  py_eq (dict_get alert "condition_type") (PStr "min_engagement_rate") = false →
  py_eq (dict_get alert "condition_type") (PStr "min_market_score") = false →
  evaluate_alert influencer_map alert = Ok None.
Proof.
  intros Hengagement Hscore. unfold evaluate_alert.
  destruct (negb _ || negb _); [reflexivity|].
  by apply scan_profiles_unknown_condition.
Qed.

Lemma unknown_condition_never_triggers_witness :
  evaluate_alert [(PStr "a", ann)] (rule_of "max_followers" (PStr "many") PNone) = Ok None.
Proof. apply unknown_condition_never_triggers; by_evaluation. Defined.

(** ** A rule on the market score *)

Section MarketScoreRule.
Context (rule : gmap string PyVal) (T : Q).
Hypothesis rule_condition : dict_get rule "condition_type" = PStr "min_market_score".
Hypothesis rule_threshold : as_num (dict_get rule "value") = Some T.
Hypothesis rule_any_niche : truthy (dict_get rule "niche") = false.

Lemma condition_matches_market_score record s :
  record !! "market_score" = Some (PFloat s) →
  condition_matches (PStr "min_market_score") (dict_get rule "value") record
  = Ok (Qle_bool T s) ∧ market_score_key record = s.
Proof.
  intros Hs. unfold condition_matches, py_ge, py_le, market_score_key, dict_get_or.
  rewrite rule_threshold, Hs. cbn. by destruct (Qle_bool T s).
Qed.

Lemma scan_profiles_below records :
  Forall (fun record => ∃ s, record !! "market_score" = Some (PFloat s)
                             ∧ Qle_bool T s = false) records →
  scan_profiles rule (PStr "min_market_score") (dict_get rule "value")
    (dict_get rule "niche") ((fun record => (record_id record, record)) <$> records)
  = Ok None.
Proof.
  induction 1 as [|record records (s & Hs & Hbelow) _ IH]; [reflexivity|].
  rewrite fmap_cons. cbn [scan_profiles]. rewrite rule_any_niche. cbn [andb].
  destruct (condition_matches_market_score record s Hs) as [-> _].
  rewrite Hbelow. exact IH.
Qed.

(** Over records in descending score order, the scan is settled by the
    first record. *)
Lemma scan_profiles_top records :
  StronglySorted (key_ge market_score_key) records →
  Forall (fun record => ∃ s, record !! "market_score" = Some (PFloat s)) records →
  scan_profiles rule (PStr "min_market_score") (dict_get rule "value")
    (dict_get rule "niche") ((fun record => (record_id record, record)) <$> records)
  = Ok (match records with
        | [] => None
        | top :: _ =>
            if Qle_bool T (market_score_key top)
            then Some (triggered_alert rule (record_id top) top)
            else None
        end).
Proof.
  intros Hsorted Hscores. destruct records as [|top rest]; [reflexivity|].
  apply StronglySorted_inv in Hsorted as [_ Htop].
  apply Forall_cons in Hscores as [[s Hs] Hrest].
  rewrite fmap_cons. cbn [scan_profiles]. rewrite rule_any_niche. cbn [andb].
  destruct (condition_matches_market_score top s Hs) as [-> ->].
  cbn [mbind Res_bind]. destruct (Qle_bool T s) eqn:Hreach.
  - unfold triggered_alert. by rewrite rule_condition.
  - apply scan_profiles_below. rewrite Forall_forall in *.
    intros record Hrecord. destruct (Hrest record Hrecord) as [s' Hs'].
    exists s'. split; [exact Hs'|].
    specialize (Htop record Hrecord). unfold key_ge in Htop.
    destruct (condition_matches_market_score record s' Hs') as [_ Hkey'].
    destruct (condition_matches_market_score top s Hs) as [_ Hkey].
    rewrite Hkey, Hkey' in Htop.
    destruct (Qle_bool T s') eqn:Hreach'; [|reflexivity].
    apply Qle_bool_iff in Hreach'.
    assert (Qle_bool T s = true) by (apply Qle_bool_iff; lra). congruence.
Qed.
End MarketScoreRule.

(** X17.  For a rule of type [min_market_score] with a numeric threshold
    [T] other than zero and no niche filter, scanning an influencer map in
    ranking order is settled by its first entry: the rule triggers exactly
    when the top-ranked record scores at least [T], and the alert is that
    of the top-ranked record. *)
Theorem market_score_rule_triggers_on_top_ranked
    (rule : gmap string PyVal) (T : Q) (scored : list (gmap string PyVal)) :
  dict_get rule "condition_type" = PStr "min_market_score" →
  as_num (dict_get rule "value") = Some T →
  ¬ (T == 0)%Q →
  truthy (dict_get rule "niche") = false →
  Forall (fun record => ∃ s, record !! "market_score" = Some (PFloat s)) scored →
  let market_data := sorted_reverse market_score_key scored in
  evaluate_alert ((fun record => (record_id record, record)) <$> market_data) rule
  = Ok (match market_data with
        | [] => None
        | top :: _ =>
            if Qle_bool T (market_score_key top)
            then Some (triggered_alert rule (record_id top) top)
            else None
        end).
Proof.
  intros Hcondition Hthreshold Hnonzero Hniche Hscores market_data.
  unfold evaluate_alert.
  rewrite (nonzero_is_truthy _ _ Hthreshold Hnonzero), Hcondition.
  cbn [truthy negb orb String.eqb]. simpl negb.
  apply (scan_profiles_top rule T Hcondition Hthreshold Hniche).
  - apply sorted_reverse_sorted.
  - subst market_data. by rewrite sorted_reverse_perm.
Qed.


Lemma market_score_rule_triggers_on_top_ranked_witness :
  let low : gmap string PyVal :=
    {[ "id" := PStr "l"; "username" := PStr "low"; "market_score" := PFloat 50 ]} in
  let high : gmap string PyVal :=
    {[ "id" := PStr "h"; "username" := PStr "high"; "market_score" := PFloat 95 ]} in
  let rule := rule_of "min_market_score" (PFloat 90) PNone in
  let market_data := sorted_reverse market_score_key [low; high] in
  usernames market_data = [PStr "high"; PStr "low"]
  ∧ evaluate_alert ((fun record => (record_id record, record)) <$> market_data) rule
    = Ok (match market_data with
          | [] => None
          | top :: _ =>
              if Qle_bool 90 (market_score_key top)
              then Some (triggered_alert rule (record_id top) top)
              else None
          end).
Proof.
  intros low high rule market_data. split; [by_evaluation|].
  apply (market_score_rule_triggers_on_top_ranked rule 90 [low; high]).
  - reflexivity.
  - reflexivity.
  - vm_compute. discriminate.
  - reflexivity.
  - repeat constructor; eexists; reflexivity.
Defined.

(** ** A cycle: its failures and its clock *)

Lemma influencer_map_from_returns market_data : ∀ acc,
  Forall (fun record => is_Some (record !! "id")) market_data →
  ∃ influencer_map, influencer_map_from acc market_data = Ok influencer_map.
Proof.
  induction market_data as [|record rest IH]; intros acc Hids; [by eexists|].
  apply Forall_cons in Hids as [[k Hk] Hids].
  cbn [influencer_map_from]. rewrite Hk. by apply IH.
Qed.

Lemma search_listing_has_ids svc query_params fs path market_data :
  search_listing svc query_params (listed fs path) = Ok market_data →
  Forall (fun record => is_Some (record !! "id")) market_data.
Proof.
  intros Hres. apply Forall_forall. intros record Hrecord.
  destruct (search_listing_members _ _ _ _ _ Hres Hrecord) as (profile & Hin & _ & Haug).
  rewrite (augment_lookup _ _ _ _ Haug) by done.
  destruct (listed_has_id _ _ _ Hin) as [i ->]. by eexists.
Qed.

(** X18.  An evaluation cycle raises nothing but a type error (a
    comparison between a number and something else, in a filter or in a
    rule, or an operand of the mock ranker that is not a number), an
    overflow error (the mock ranker adding an [int] beyond the range of the
    floats to a [float]) or the authentication error of the private
    listing: the lookup [p['id']] that builds the influencer map never
    fails, since every listed record carries its id. *)
Theorem cycle_raises_type_or_authentication_error
    (svc : AlertService) (t : Q) (w : World) (e : PyErr) :
  fst (evaluate_all_alerts svc t w) = Raise e →
  e = TypeError ∨ e = OverflowError ∨ e = auth_required.
Proof.
  destruct (Qlt_le_dec (t - last_check_time w)
              (inject_Z (ALERT_CHECK_INTERVAL_SECONDS (alert_settings svc)))) as [Hsoon|Hdue].
  - by rewrite (evaluate_too_soon svc t w Hsoon).
  - rewrite (evaluate_due svc t w Hdue).
    destruct (search_listing _ _ _) as [market_data|e'] eqn:Hsearch.
    + destruct (influencer_map_from_returns market_data [])
        as [influencer_map Hmap];
        [by eapply search_listing_has_ids|].
      unfold build_influencer_map. rewrite Hmap.
      unfold collection_path, _get_private_collection_path.
      destruct (current_user_id (alert_db svc)) as [uid|];
        [destruct (String.eqb uid "")|]; cbn [fst];
        try (intros [= <-]; by right; right).
      intros Hloop. left. by eapply evaluate_alerts_raises_type_error.
    + cbn [fst]. intros [= <-].
      apply search_listing_raises in Hsearch as [-> | ->]; [by left | by right; left].
Qed.

Lemma cycle_raises_type_or_authentication_error_witness :
  let svc := fixture_alerts [("a", ann); ("b", overflowing)] [] in
  fst (evaluate_all_alerts svc 1000 fresh_world) = Raise OverflowError
  ∧ (OverflowError = TypeError ∨ OverflowError = OverflowError
     ∨ OverflowError = auth_required).
Proof.
  intros svc.
  assert (fst (evaluate_all_alerts svc 1000 fresh_world) = Raise OverflowError) as Hrun
    by by_evaluation.
  split; [exact Hrun|].
  exact (cycle_raises_type_or_authentication_error svc 1000 fresh_world _ Hrun).
Defined.

(** X19.  A due cycle records its time before it does anything that can
    fail: when it raises, the recorded check time is its own time all the
    same, so an invocation sooner than the interval after a failed cycle
    is skipped, returning the empty list without touching the store. *)
Theorem failed_cycle_still_counts
    (svc : AlertService) (t t' : Q) (w : World) (e : PyErr) :
  let interval := inject_Z (ALERT_CHECK_INTERVAL_SECONDS (alert_settings svc)) in
  let w' := snd (evaluate_all_alerts svc t w) in
  (interval <= t - last_check_time w)%Q →
  fst (evaluate_all_alerts svc t w) = Raise e →
  (t' - t < interval)%Q →
  last_check_time w' = t
  ∧ evaluate_all_alerts svc t' w' = (Ok [], w').
Proof.
  intros interval w' Hdue _ Hsoon.
  destruct (evaluate_due_world svc t w Hdue) as [Hlast _]. fold w' in Hlast.
  split; [exact Hlast|].
  apply evaluate_too_soon. by rewrite Hlast.
Qed.

Lemma failed_cycle_still_counts_witness :
  let svc := {| alert_db := {| app_id := "app"; current_user_id := None;
                               db := fixture_client two_profiles [] |};
                alert_settings := default_settings;
                influencer_service := fixture_search mock_agent two_profiles |} in
  let w' := snd (evaluate_all_alerts svc 1000 fresh_world) in
  last_check_time w' = 1000%Q
  ∧ evaluate_all_alerts svc 1001 w' = (Ok [], w').
Proof.
  intros svc w'.
  apply (failed_cycle_still_counts svc 1000 1001 fresh_world auth_required).
  - vm_compute. discriminate.
  - by_evaluation.
  - vm_compute. reflexivity.
Defined.

(** X20.  The first invocation after the service is constructed is never
    skipped: the constructor sets the recorded time a full interval and a
    minute back, so an invocation at the time of construction or later
    (or up to a minute earlier) reaches the store and records its time. *)
Theorem first_cycle_is_due (svc : AlertService) (now t : Q) :
  (now - 60 <= t)%Q →
  let w := AlertService_init (alert_settings svc) now in
  evaluation_times svc [t] w = [t]
  ∧ last_check_time (snd (evaluate_all_alerts svc t w)) = t.
Proof.
  intros Hlate w.
  assert (inject_Z (ALERT_CHECK_INTERVAL_SECONDS (alert_settings svc))
          <= t - last_check_time w)%Q as Hdue.
  { subst w. cbn [AlertService_init last_check_time]. lra. }
  destruct (evaluate_due_world svc t w Hdue) as [Hlast Hcalls].
  split; [|exact Hlast].
  cbn [evaluation_times]. apply Nat.ltb_lt in Hcalls. by rewrite Hcalls.
Qed.

Lemma first_cycle_is_due_witness :
  let svc := fixture_alerts two_profiles [] in
  evaluation_times svc [1000%Q] fresh_world = [1000%Q]
  ∧ last_check_time (snd (evaluate_all_alerts svc 1000 fresh_world)) = 1000%Q.
Proof.
  intros svc. apply (first_cycle_is_due svc 1000 1000). vm_compute. discriminate.
Defined.


Lemma constructed_service_has_tenant_witness :
  let fs := FirestoreService_init "app" (Some "") MockFirestoreClient in
  ¬ tenant_unbound fs
  ∧ get_current_user_id fs = Ok "fastapi-guest-app"
  ∧ collection_path fs "user_alerts" true
    = Ok "artifacts/app/users/fastapi-guest-app/user_alerts".
Proof.
  intros fs.
  destruct (constructed_service_has_tenant "app" (Some "") MockFirestoreClient "user_alerts")
    as (Hbound & (user_id & Huser & Hid & Hpath) & _).
  injection Huser as <-. by repeat split.
Defined.


Lemma evaluation_scans_at_most_limit_witness :
  let svc := fixture_search mock_agent twenty_six_profiles in
  ∃ market_data,
    search_listing svc ∅ (public_pool (inf_db svc)) = Ok market_data
    ∧ length (public_pool (inf_db svc)) = 26%nat
    ∧ Z.of_nat (length market_data) <= 25.
Proof.
  intros svc.
  pose (market_data := match search_listing svc ∅ (public_pool (inf_db svc)) with
                       | Ok l => l
                       | Raise _ => []
                       end).
  assert (search_listing svc ∅ (public_pool (inf_db svc)) = Ok market_data) as Hres
    by by_evaluation.
  exists market_data. split; [exact Hres|]. split; [by_evaluation|].
  apply (evaluation_scans_at_most_limit svc market_data); [|exact Hres].
  vm_compute. discriminate.
Defined.
